(** * kubor-demo1: a demonstration HTTP service

  A shallow embedding of [app.go] in its two variants: the early one
  (module [Simple]) and the extended one (module [Extended]).

  - [http], [strconv] and [json] hold the parts of Go's libraries the
    program calls, by their documented contracts.
  - [Simple] and [Extended] hold the program: its handlers as functions
    on a response writer, its main path as a sequence of actions.
  - [step] and [exec] run a process: the main goroutine, the shutdown
    goroutine and the server, interleaved by a schedule of events. *)

From stdpp Require Import base gmap strings list sorting.
From Stdlib Require Import ZArith Lia Ascii String.

Local Open Scope string_scope.
Local Open Scope Z_scope.
Local Open Scope list_scope.

(** ** strconv *)

Module strconv.

(** The value of a decimal digit, [ch - '0'] with [ch <= 9]. *)
Definition digit (c : ascii) : option Z :=
  let n := Z.of_N (Ascii.N_of_ascii c) - 48 in
  if (0 <=? n) && (n <=? 9) then Some n else None.

Fixpoint digits (s : string) (acc : Z) : option Z :=
  match s with
  | EmptyString => Some acc
  | String c s' =>
      match digit c with
      | Some d => digits s' (acc * 10 + d)
      | None => None
      end
  end.

(** [int] is 64 bits wide on the platform the image is built for. *)
Definition minInt : Z := - 2 ^ 63.
Definition maxInt : Z := 2 ^ 63 - 1.

(** [strconv.Atoi]: an optional sign, then at least one decimal digit and
    nothing else; [None] stands for a non-nil error ([ErrSyntax], or
    [ErrRange] when the value does not fit [int]). *)
Definition Atoi (s : string) : option Z :=
  let '(neg, s1) :=
    match s with
    | String "-" r => (true, r)
    | String "+" r => (false, r)
    | _ => (false, s)
    end in
  match s1 with
  | EmptyString => None
  | _ =>
      match digits s1 0 with
      | Some n =>
          let v := if neg then - n else n in
          if (minInt <=? v) && (v <=? maxInt) then Some v else None
      | None => None
      end
  end.

End strconv.

(** ** encoding/json *)

Module json.

(** A JSON document as a tree. The program builds documents out of
    strings, arrays and objects only. An object keeps its members in
    the order they are written. *)
#[warnings="-register-all"]
Inductive value :=
| Str (s : string)
| Arr (items : list value)
| Obj (members : list (string * value)).

(** The member of an object with a given name, as a decoder finds it. *)
Fixpoint assoc (k : string) (ms : list (string * value)) : option value :=
  match ms with
  | [] => None
  | (k', v) :: ms' => if String.eqb k k' then Some v else assoc k ms'
  end.

Definition member (k : string) (v : value) : option value :=
  match v with
  | Obj ms => assoc k ms
  | _ => None
  end.

Definition names (v : value) : list string :=
  match v with
  | Obj ms => ms.*1
  | _ => []
  end.

(** How the encoder writes the Go values the program uses. *)
Definition of_strings (l : list string) : value := Arr (Str <$> l).

Definition key_le (a b : string * list string) : Prop :=
  Is_true (String.leb a.1 b.1).

#[global] Instance key_le_dec : RelDecision key_le.
Proof. intros a b. unfold key_le. apply _. Defined.

(** A [map[string][]string] becomes an object, its keys sorted. *)
Definition of_map (m : gmap string (list string)) : value :=
  Obj ((fun kv => (kv.1, of_strings kv.2)) <$> merge_sort key_le (map_to_list m)).

(** The [omitempty] test for a map: nil or of length zero. A nil map
    is [None]. *)
Definition empty_map (m : option (gmap string (list string))) : bool :=
  match m with
  | None => true
  | Some m => bool_decide (m = ∅)
  end.

(** A struct field tagged [omitempty] that holds a map. *)
Definition omitempty (name : string) (m : option (gmap string (list string)))
  : list (string * value) :=
  match m with
  | Some m' => if empty_map m then [] else [(name, of_map m')]
  | None => []
  end.


End json.

(** ** net/http *)

Module http.

Definition StatusOK : Z := 200.
Definition StatusNotFound : Z := 404.
Definition StatusMethodNotAllowed : Z := 405.
Definition StatusServiceUnavailable : Z := 503.

Definition StatusText (code : Z) : string :=
  if code =? StatusOK then "OK"
  else if code =? StatusNotFound then "Not Found"
  else if code =? StatusMethodNotAllowed then "Method Not Allowed"
  else if code =? StatusServiceUnavailable then "Service Unavailable"
  else "".

(** [http.Header] and [url.Values] are both [map[string][]string]. *)
Definition Get (m : gmap string (list string)) (k : string) : string :=
  match m !! k with
  | Some (v :: _) => v
  | _ => ""
  end.

(** The part of [url.URL] the program reads. [Query] is what
    [req.URL.Query()] returns, the parsed query string. *)
Record URL := {
  Path : string;
  Query : gmap string (list string)
}.

(** [Form] and [PostForm] are nil ([None]) until [ParseForm] is
    called on the request. *)
Record Request := {
  Method : string;
  Url : URL;
  Proto : string;
  Header : gmap string (list string);
  Body : string;
  Host : string;
  Form : option (gmap string (list string));
  PostForm : option (gmap string (list string));
  RemoteAddr : string;
  RequestURI : string
}.

(** A request as the server hands it to a handler: whatever the client
    sent, with no form parsed yet. *)
Definition incoming (method : string) (u : URL) (proto host uri : string)
    (h : gmap string (list string)) (b remote : string) : Request :=
  {| Method := method; Url := u; Proto := proto; Header := h; Body := b;
     Host := host; Form := None; PostForm := None;
     RemoteAddr := remote; RequestURI := uri |}.

(** What a handler writes into a body: text, or a document given to a
    [json.Encoder] with its indentation. How the encoder renders the
    document as bytes is encoding/json's business. *)
Inductive chunk :=
| Text (s : string)
| Document (indent : string) (v : json.value).

(** The [http.ResponseWriter] a handler is given, by the contract of
    that interface:
    - [Header()] returns the map [handlerHeader], which the handler
      changes in place;
    - [WriteHeader] commits the status code together with the header
      map as it is at that moment ([sentHeader]); later changes of
      the map do not reach the response, and a second [WriteHeader]
      is ignored;
    - [Write] calls [WriteHeader(StatusOK)] first when nothing was
      committed yet, then appends to the body.
    [WriteHeader] panics on a code below 100 or above 999; the program
    passes it 200, 404, 405, 503 and codes it has checked to be in that
    range. The response is the one the handler produces; what the server
    adds to it on the wire (a sniffed content type, a content length) is
    not part of it. *)
Record ResponseWriter := {
  handlerHeader : gmap string (list string);
  wroteHeader : bool;
  status : Z;
  sentHeader : gmap string (list string);
  body : list chunk
}.

Definition NewResponseWriter : ResponseWriter :=
  {| handlerHeader := ∅; wroteHeader := false; status := 0;
     sentHeader := ∅; body := [] |}.

(** [w.Header().Set(k, v)] *)
Definition Header_Set (k v : string) (w : ResponseWriter) : ResponseWriter :=
  {| handlerHeader := <[k := [v] ]> (handlerHeader w);
     wroteHeader := wroteHeader w; status := status w;
     sentHeader := sentHeader w; body := body w |}.

Definition WriteHeader (code : Z) (w : ResponseWriter) : ResponseWriter :=
  if wroteHeader w then w
  else {| handlerHeader := handlerHeader w; wroteHeader := true;
          status := code; sentHeader := handlerHeader w; body := body w |}.

(** [None] is the nil error; this writer takes every write. *)
Definition Write (c : chunk) (w : ResponseWriter)
  : ResponseWriter * option string :=
  let w := if wroteHeader w then w else WriteHeader StatusOK w in
  ({| handlerHeader := handlerHeader w; wroteHeader := wroteHeader w;
      status := status w; sentHeader := sentHeader w;
      body := body w ++ [c] |}, None).

(** [fmt.Fprintf(w, `%s`, v)] *)
Definition Fprintf_s (v : string) (w : ResponseWriter)
  : ResponseWriter * option string :=
  Write (Text v) w.

(** [fmt.Fprintln(w, v)] *)
Definition Fprintln (v : string) (w : ResponseWriter)
  : ResponseWriter * option string :=
  Write (Text (v +:+ String "010" EmptyString)) w.

(** [http.Error] *)
Definition Error (error : string) (code : Z) (w : ResponseWriter)
  : ResponseWriter :=
  let w := Header_Set "Content-Type" "text/plain; charset=utf-8" w in
  let w := Header_Set "X-Content-Type-Options" "nosniff" w in
  let w := WriteHeader code w in
  (Fprintln error w).1.

(** [http.NotFound] *)
Definition NotFound (w : ResponseWriter) : ResponseWriter :=
  Error "404 page not found" StatusNotFound w.

(** The response a handler has produced: the status and the header it
    committed, the body it wrote. *)
Record Response := {
  StatusCode : Z;
  ResponseHeader : gmap string (list string);
  ResponseBody : list chunk
}.

(** When the handler returns without having written anything, the
    server commits the header with [StatusOK]. *)
Definition finish (w : ResponseWriter) : Response :=
  let w := if wroteHeader w then w else WriteHeader StatusOK w in
  {| StatusCode := status w; ResponseHeader := sentHeader w;
     ResponseBody := body w |}.

(** The text of a body made of text only. *)
Fixpoint text (b : list chunk) : option string :=
  match b with
  | [] => Some ""
  | Text s :: b' => (fun r => s +:+ r) <$> text b'
  | Document _ _ :: _ => None
  end.

End http.

Module Encoder.

(** [json.NewEncoder(w)], [enc.SetIndent("", indent)] and
    [enc.Encode(v)] for a value whose JSON form is [v]: one write of
    the whole document. *)
Definition Encode (indent : string) (v : json.value) (w : http.ResponseWriter)
  : http.ResponseWriter * option string :=
  http.Write (http.Document indent v) w.

End Encoder.

(** ** The program's data *)

(** [time.Duration], in nanoseconds. *)
Definition Duration : Type := Z.
Definition Second : Duration := 1000000000.

Inductive Signal := SIGINT | SIGTERM.

#[global] Instance Signal_eq_dec : EqDecision Signal.
Proof. solve_decision. Defined.

(** The command line flags once parsed. [exitAfter] is tested against
    nil by the program, so it is kept as a pointer that could be nil;
    [flag.Duration] itself always returns [Some]. *)
Record Config := {
  readyAfter : Duration;
  exitAfter : option Duration;
  exitCode : Z;
  listen : string
}.

(** The two package variables a build may set with the linker's -X,
    and the platform the program is compiled for. *)
Record Build := {
  branch : string;
  revision : string;
  GOOS : string;
  GOARCH : string
}.

Definition development : Build :=
  {| branch := "development"; revision := "latest";
     GOOS := "linux"; GOARCH := "amd64" |}.

(** A line given to [log.Printf] or [log.Fatalf], by its format and
    arguments. *)
Inductive logline :=
| Starting (branch revision : string)
| ReceivedSignal (sig : Signal)
| ListenTo (addr : string)
| CannotListen (addr : string)
| WaitingToBeReady (d : Duration)
| RunningForEver
| RunningFor (d : Duration)
| GoodBye
| ErrorWritingResponse (remote : string) (err : string)
| ErrorWritingResponseOf (v : string) (remote : string) (err : string).

(** What the main goroutine does, one statement at a time. *)
Inductive action :=
| Printf (l : logline)
| FlagParse
| Notify (sig : Signal)
| GoShutdown
| GoRunServer
| Sleep (d : Duration)
| Store (b : bool)
| Wait
| Exit (code : Z).

(** A handler: from the value of [ready] it loads, the response writer
    and the request, to the response writer as it leaves it and the
    lines it logged. *)
Definition Handler : Type :=
  bool -> http.ResponseWriter -> http.Request -> http.ResponseWriter * list logline.

(** ** The early variant *)

Module Simple.

Definition defaults : Config :=
  {| readyAfter := 15 * Second; exitAfter := Some 0; exitCode := 1;
     listen := ":8080" |}.

Definition init : list action := [Store false].

Definition registerGracefulShutdown : list action :=
  [Notify SIGTERM; Notify SIGINT; GoShutdown].

Definition waitToBeReady (c : Config) : list action :=
  [Printf (WaitingToBeReady (readyAfter c)); Sleep (readyAfter c); Store true].

Definition blockForEver : list action := [Wait].

Definition justRun (c : Config) : list action :=
  match exitAfter c with
  | None => Printf RunningForEver :: blockForEver
  | Some d =>
      if d =? 0 then Printf RunningForEver :: blockForEver
      else [Printf (RunningFor d); Sleep d]
  end.

Definition main (b : Build) (c : Config) : list action :=
  [Printf (Starting (branch b) (revision b)); FlagParse]
  ++ registerGracefulShutdown
  ++ [GoRunServer]
  ++ waitToBeReady c
  ++ justRun c
  ++ [Printf GoodBye; Exit (exitCode c)].

Definition handleHealth (ready : bool) (resp : http.ResponseWriter)
    (req : http.Request) : http.ResponseWriter * list logline :=
  let r := ready in
  let '(resp, v) :=
    if r then (http.WriteHeader http.StatusOK resp, "OK")
    else (http.WriteHeader http.StatusServiceUnavailable resp, "NOT_READY") in
  let resp := http.Header_Set "Content-Type" "text/plain" resp in
  match http.Fprintf_s v resp with
  | (resp, Some err) =>
      (resp, [ErrorWritingResponseOf v (http.RemoteAddr req) err])
  | (resp, None) => (resp, [])
  end.

Definition handleRoot (resp : http.ResponseWriter) (req : http.Request)
  : http.ResponseWriter * list logline :=
  let resp := http.Header_Set "Content-Type" "text/plain" resp in
  match http.Write (http.Text "Hello world!") resp with
  | (resp, Some err) => (resp, [ErrorWritingResponse (http.RemoteAddr req) err])
  | (resp, None) => (resp, [])
  end.

Definition handler : Handler := fun ready resp req =>
  if negb (http.Method req =? "GET")%string then
    (http.Error (http.StatusText http.StatusMethodNotAllowed)
       http.StatusMethodNotAllowed resp, [])
  else if (http.Path (http.Url req) =? "/")%string then handleRoot resp req
  else if (http.Path (http.Url req) =? "/healthz")%string then
    handleHealth ready resp req
  else (http.NotFound resp, []).

End Simple.

(** ** The extended variant *)

Module Extended.

Definition defaults : Config :=
  {| readyAfter := 0; exitAfter := Some 0; exitCode := 1; listen := ":8080" |}.

Definition init : list action := [Store false].

Definition registerGracefulShutdown : list action :=
  [Notify SIGTERM; Notify SIGINT; GoShutdown].

Definition waitToBeReady (c : Config) : list action :=
  (if readyAfter c >? 0
   then [Printf (WaitingToBeReady (readyAfter c)); Sleep (readyAfter c)]
   else [])
  ++ [Store true].

Definition blockForEver : list action := [Wait].

Definition justRun (c : Config) : list action :=
  match exitAfter c with
  | None => Printf RunningForEver :: blockForEver
  | Some d =>
      if d =? 0 then Printf RunningForEver :: blockForEver
      else [Printf (RunningFor d); Sleep d]
  end.

Definition main (b : Build) (c : Config) : list action :=
  [Printf (Starting (branch b) (revision b)); FlagParse]
  ++ registerGracefulShutdown
  ++ [GoRunServer]
  ++ waitToBeReady c
  ++ justRun c
  ++ [Printf GoodBye; Exit (exitCode c)].

Record runtimeBody := {
  Branch : string;
  Revision : string;
  Platform : string
}.

Record requestBody := {
  Proto : string;
  Host : string;
  Method : string;
  RequestURI : string;
  Headers : option (gmap string (list string));
  Form : option (gmap string (list string));
  PostForm : option (gmap string (list string))
}.

Record responseBody := {
  Runtime : runtimeBody;
  Request : requestBody
}.

Definition responseBodyFor (b : Build) (req : http.Request) : responseBody :=
  {| Runtime :=
       {| Branch := branch b;
          Revision := revision b;
          Platform := GOOS b +:+ "-" +:+ GOARCH b |};
     Request :=
       {| Proto := http.Proto req;
          Host := http.Host req;
          Method := http.Method req;
          RequestURI := http.RequestURI req;
          Headers := Some (http.Header req);
          Form := http.Form req;
          PostForm := http.PostForm req |} |}.

(** The JSON form of the three structs, by their field tags: members in
    the order of the fields, under the tagged names, the [omitempty]
    ones left out when empty. *)
Definition runtimeBody_json (r : runtimeBody) : json.value :=
  json.Obj [("branch", json.Str (Branch r));
            ("revision", json.Str (Revision r));
            ("platform", json.Str (Platform r))].

Definition requestBody_json (r : requestBody) : json.value :=
  json.Obj ([("proto", json.Str (Proto r));
             ("host", json.Str (Host r));
             ("method", json.Str (Method r));
             ("requestURI", json.Str (RequestURI r))]
            ++ json.omitempty "headers" (Headers r)
            ++ json.omitempty "form" (Form r)
            ++ json.omitempty "postForm" (PostForm r)).

Definition responseBody_json (r : responseBody) : json.value :=
  json.Obj [("runtime", runtimeBody_json (Runtime r));
            ("request", requestBody_json (Request r))].









Definition methodNotAllowed (resp : http.ResponseWriter) : http.ResponseWriter :=
  http.Error (http.StatusText http.StatusMethodNotAllowed)
    http.StatusMethodNotAllowed resp.

Definition handleHealth (ready : bool) (resp : http.ResponseWriter)
    (req : http.Request) : http.ResponseWriter * list logline :=
  if negb (http.Method req =? "GET")%string then (methodNotAllowed resp, [])
  else
    let r := ready in
    let '(resp, v) :=
      if r then (http.WriteHeader http.StatusOK resp, "OK")
      else (http.WriteHeader http.StatusServiceUnavailable resp, "NOT_READY") in
    let resp := http.Header_Set "Content-Type" "text/plain" resp in
    match http.Fprintf_s v resp with
    | (resp, Some err) =>
        (resp, [ErrorWritingResponseOf v (http.RemoteAddr req) err])
    | (resp, None) => (resp, [])
    end.

Definition handleEveryThingElse (b : Build) (resp : http.ResponseWriter)
    (req : http.Request) : http.ResponseWriter * list logline :=
  let resp := http.Header_Set "Content-Type" "application/json" resp in
  let plainStatusCode := http.Get (http.Query (http.Url req)) "statusCode" in
  let resp :=
    match strconv.Atoi plainStatusCode with
    | Some statusCode =>
        if (statusCode >=? 100) && (statusCode <? 1000)
        then http.WriteHeader statusCode resp
        else resp
    | None => resp
    end in
  let body := responseBodyFor b req in
  match Encoder.Encode "  " (responseBody_json body) resp with
  | (resp, Some err) => (resp, [ErrorWritingResponse (http.RemoteAddr req) err])
  | (resp, None) => (resp, [])
  end.

Definition handler (b : Build) : Handler := fun ready resp req =>
  if (http.Path (http.Url req) =? "/healthz")%string then
    handleHealth ready resp req
  else handleEveryThingElse b resp req.

End Extended.

(** ** The process *)

Inductive variant := simple | extended.

Definition init (v : variant) : list action :=
  match v with simple => Simple.init | extended => Extended.init end.

Definition main (v : variant) (b : Build) (c : Config) : list action :=
  match v with simple => Simple.main b c | extended => Extended.main b c end.

Definition handler (v : variant) (b : Build) : Handler :=
  match v with simple => Simple.handler | extended => Extended.handler b end.

(** The goroutine started by [registerGracefulShutdown]: waiting at
    [<-gracefulStop], holding the signal it received, having logged
    it. Its last statement is [os.Exit(0)]. *)
Inductive shutdown_state :=
| NotStarted
| AtReceive
| Received (sig : Signal)
| Logged (sig : Signal).

(** The goroutine running [runServer]. *)
Inductive server_state :=
| Off
| Spawned
| Serving.

Record process := {
  ready : option bool;      (* the atomic.Value: nothing stored yet, or a bool *)
  pc : list action;         (* what the main goroutine has still to do *)
  history : list action;    (* what it has done *)
  notified : list Signal;   (* the signals relayed to gracefulStop *)
  shutdown : shutdown_state;
  server : server_state;
  exit : option Z;          (* the exit code, once the process has exited *)
  logs : list logline;
  served : list (http.Request * http.Response)
}.

(** The process as the runtime starts it: [init] runs before [main], on
    the same goroutine. *)
Definition start (v : variant) (b : Build) (c : Config) : process :=
  {| ready := None; pc := init v ++ main v b c; history := [];
     notified := []; shutdown := NotStarted; server := Off; exit := None;
     logs := []; served := [] |}.

(** What makes a process move: the main goroutine takes its next step;
    a signal arrives and the shutdown goroutine takes it from the
    channel; the shutdown goroutine takes its next step; the server
    starts to accept; [ListenAndServe] returns its error; a request is
    handled. *)
Inductive event :=
| Main
| Deliver (sig : Signal)
| Shutdown
| ServerUp
| ServerFail
| Request (req : http.Request).

Definition log (l : logline) (s : process) : process :=
  {| ready := ready s; pc := pc s; history := history s;
     notified := notified s; shutdown := shutdown s; server := server s;
     exit := exit s; logs := logs s ++ [l]; served := served s |}.

Definition os_Exit (code : Z) (s : process) : process :=
  {| ready := ready s; pc := pc s; history := history s;
     notified := notified s; shutdown := shutdown s; server := server s;
     exit := Some code; logs := logs s; served := served s |}.

Definition set_shutdown (g : shutdown_state) (s : process) : process :=
  {| ready := ready s; pc := pc s; history := history s;
     notified := notified s; shutdown := g; server := server s;
     exit := exit s; logs := logs s; served := served s |}.

Definition set_server (g : server_state) (s : process) : process :=
  {| ready := ready s; pc := pc s; history := history s;
     notified := notified s; shutdown := shutdown s; server := g;
     exit := exit s; logs := logs s; served := served s |}.

(** The main goroutine has done [a] and goes on with [rest]. *)
Definition advance (a : action) (rest : list action) (s : process) : process :=
  {| ready := ready s; pc := rest; history := history s ++ [a];
     notified := notified s; shutdown := shutdown s; server := server s;
     exit := exit s; logs := logs s; served := served s |}.

(** The effect of one statement of the main goroutine. *)
Definition perform (a : action) (s : process) : process :=
  match a with
  | Printf l => log l s
  | FlagParse => s
  | Notify sig =>
      {| ready := ready s; pc := pc s; history := history s;
         notified := sig :: notified s; shutdown := shutdown s;
         server := server s; exit := exit s; logs := logs s;
         served := served s |}
  | GoShutdown => set_shutdown AtReceive s
  | GoRunServer => set_server Spawned s
  | Sleep _ => s
  | Store b =>
      {| ready := Some b; pc := pc s; history := history s;
         notified := notified s; shutdown := shutdown s; server := server s;
         exit := exit s; logs := logs s; served := served s |}
  | Wait => s
  | Exit code => os_Exit code s
  end.

Definition respond (h : Handler) (r : bool) (req : http.Request) (s : process)
  : process :=
  let '(w, ls) := h r http.NewResponseWriter req in
  {| ready := ready s; pc := pc s; history := history s;
     notified := notified s; shutdown := shutdown s; server := server s;
     exit := exit s; logs := logs s ++ ls;
     served := served s ++ [(req, http.finish w)] |}.

(** One step of the process; [None] when the event cannot happen in
    this state. Nothing happens in a process that has exited. [Wait] on
    a wait group nobody ever marks done never returns: the main goroutine
    has no step there. When [main] returns the process exits with code
    0. A signal is followed from the moment the shutdown goroutine waits
    at its channel and only if it was registered with [Notify]; what
    becomes of a signal that arrives earlier is not described here.
    [log.Fatalf] exits with code 1. *)
Definition step (h : Handler) (c : Config) (e : event) (s : process)
  : option process :=
  match exit s with
  | Some _ => None
  | None =>
      match e with
      | Main =>
          match pc s with
          | [] => Some (os_Exit 0 s)
          | Wait :: _ => None
          | a :: rest => Some (perform a (advance a rest s))
          end
      | Deliver sig =>
          match shutdown s with
          | AtReceive =>
              if bool_decide (sig ∈ notified s)
              then Some (set_shutdown (Received sig) s)
              else None
          | _ => None
          end
      | Shutdown =>
          match shutdown s with
          | Received sig => Some (set_shutdown (Logged sig) (log (ReceivedSignal sig) s))
          | Logged _ => Some (os_Exit 0 s)
          | _ => None
          end
      | ServerUp =>
          match server s with
          | Spawned => Some (set_server Serving (log (ListenTo (listen c)) s))
          | _ => None
          end
      | ServerFail =>
          match server s with
          | Off => None
          | Spawned =>
              Some (os_Exit 1 (log (CannotListen (listen c))
                                 (log (ListenTo (listen c)) s)))
          | Serving => Some (os_Exit 1 (log (CannotListen (listen c)) s))
          end
      | Request req =>
          match server s, ready s with
          | Serving, Some r => Some (respond h r req s)
          | _, _ => None
          end
      end
  end.

(** A schedule, run from a state. *)
Fixpoint exec (h : Handler) (c : Config) (es : list event) (s : process)
  : option process :=
  match es with
  | [] => Some s
  | e :: es' =>
      match step h c e s with
      | Some s' => exec h c es' s'
      | None => None
      end
  end.

(** The states a process of variant [v] can be in. *)
Definition reachable (v : variant) (b : Build) (c : Config) (s : process) : Prop :=
  exists es, exec (handler v b) c es (start v b c) = Some s.

(** The main goroutine alone, for as long as it has a step. *)
Fixpoint run_main (h : Handler) (c : Config) (fuel : nat) (s : process) : process :=
  match fuel with
  | O => s
  | S n =>
      match step h c Main s with
      | Some s' => run_main h c n s'
      | None => s
      end
  end.

(** The values stored into [ready], in order. *)
Definition stores (l : list action) : list bool :=
  omap (fun a => match a with Store b => Some b | _ => None end) l.

(** The response to one request, for a value of [ready]. *)
Definition serve (h : Handler) (r : bool) (req : http.Request) : http.Response :=
  http.finish (h r http.NewResponseWriter req).1.

Definition waitToBeReady (v : variant) (c : Config) : list action :=
  match v with
  | simple => Simple.waitToBeReady c
  | extended => Extended.waitToBeReady c
  end.

(** What holds of a process that runs the statements [P] on its main
    goroutine, in every state it reaches. *)
Record consistent (P : list action) (s : process) : Prop := {
  inv_program : history s ++ pc s = P;
  inv_wait : Wait ∉ history s;
  inv_ready : ready s = last (stores (history s));
  inv_notified : forall sig, sig ∈ notified s <-> Notify sig ∈ history s;
  inv_shutdown : shutdown s <> NotStarted -> GoShutdown ∈ history s;
  inv_server : server s <> Off -> GoRunServer ∈ history s;
  inv_exited : forall code, Exit code ∈ history s -> exit s = Some code;
  inv_exit : forall k, exit s = Some k ->
    Exit k ∈ history s
    \/ (k = 0 /\ pc s = [])
    \/ (k = 0 /\ exists sig, shutdown s = Logged sig)
    \/ (k = 1 /\ server s <> Off)
}.

(** ** Sample inputs *)

Definition request (method path : string) (query : gmap string (list string))
  : http.Request :=
  http.incoming method {| http.Path := path; http.Query := query |}
    "HTTP/1.1" "localhost:8080" path ∅ "" "127.0.0.1:40000".

Definition get_healthz : http.Request := request "GET" "/healthz" ∅.

Definition post_healthz : http.Request := request "POST" "/healthz" ∅.

(** [GET /?statusCode=v] *)
Definition get_statusCode (v : string) : http.Request :=
  request "GET" "/" {[ "statusCode" := [v] ]}.

(** [-exitAfter=2s -exitCode=7] *)
Definition exit_7_after_2s : Config :=
  {| readyAfter := 0; exitAfter := Some (2 * Second); exitCode := 7;
     listen := ":8080" |}.

(** [-readyAfter=-1s] *)
Definition ready_after_minus_1s : Config :=
  {| readyAfter := - Second; exitAfter := Some 0; exitCode := 1;
     listen := ":8080" |}.

(** ** Readings of requests, responses and numbers *)

(** The decimal numeral of a number that is not negative, as a client
    writes it into a query. *)
Definition digit_char (d : Z) : ascii := Ascii.ascii_of_N (Z.to_N (48 + d)).

Fixpoint decimal_digits (fuel : nat) (n : Z) : string :=
  match fuel with
  | O => String (digit_char n) EmptyString
  | S fuel' =>
      if n <? 10 then String (digit_char n) EmptyString
      else decimal_digits fuel' (n / 10)
           +:+ String (digit_char (n mod 10)) EmptyString
  end.

Definition decimal (n : Z) : string :=
  decimal_digits (Z.to_nat (Z.log2 n)) n.

(** The requests the health route answers with the value of [ready]. *)
Definition is_health_get (req : http.Request) : bool :=
  (http.Path (http.Url req) =? "/healthz")%string
  && (http.Method req =? "GET")%string.

(** The status codes of the answers to those requests, in the order the
    requests were handled. *)
Definition health_statuses (l : list (http.Request * http.Response)) : list Z :=
  (fun e => http.StatusCode e.2) <$> filter (fun e => is_health_get e.1 = true) l.

(** * Properties *)

(** ** The response writer *)

Section ResponseWriterFacts.

Variable w : http.ResponseWriter.

Lemma WriteHeader_fresh code :
  http.wroteHeader w = false ->
  http.WriteHeader code w =
    {| http.handlerHeader := http.handlerHeader w; http.wroteHeader := true;
       http.status := code; http.sentHeader := http.handlerHeader w;
       http.body := http.body w |}.
Proof. intros Hw. unfold http.WriteHeader. now rewrite Hw. Qed.

Lemma WriteHeader_again code :
  http.wroteHeader w = true -> http.WriteHeader code w = w.
Proof. intros Hw. unfold http.WriteHeader. now rewrite Hw. Qed.

Lemma Header_Set_wroteHeader k v :
  http.wroteHeader (http.Header_Set k v w) = http.wroteHeader w.
Proof. reflexivity. Qed.

Lemma Header_Set_sent k v :
  http.sentHeader (http.Header_Set k v w) = http.sentHeader w.
Proof. reflexivity. Qed.

Lemma Write_status c :
  http.status (http.Write c w).1 =
    if http.wroteHeader w then http.status w else http.StatusOK.
Proof. unfold http.Write, http.WriteHeader. now destruct (http.wroteHeader w). Qed.

Lemma Write_wroteHeader c : http.wroteHeader (http.Write c w).1 = true.
Proof.
  unfold http.Write, http.WriteHeader.
  now destruct (http.wroteHeader w) eqn:E; simpl; rewrite ?E.
Qed.

Lemma Write_body c : http.body (http.Write c w).1 = http.body w ++ [c].
Proof. unfold http.Write, http.WriteHeader. now destruct (http.wroteHeader w). Qed.

Lemma Write_sent c :
  http.sentHeader (http.Write c w).1 =
    if http.wroteHeader w then http.sentHeader w else http.handlerHeader w.
Proof. unfold http.Write, http.WriteHeader. now destruct (http.wroteHeader w). Qed.

Lemma Write_no_error c : (http.Write c w).2 = None.
Proof. reflexivity. Qed.

Lemma finish_written :
  http.wroteHeader w = true ->
  http.finish w =
    {| http.StatusCode := http.status w;
       http.ResponseHeader := http.sentHeader w;
       http.ResponseBody := http.body w |}.
Proof. intros Hw. unfold http.finish. now rewrite Hw. Qed.

End ResponseWriterFacts.

(** [http.Error] answers with the code it is given, whatever the header
    map held before. *)
Lemma Error_fresh msg code w :
  http.wroteHeader w = false ->
  http.wroteHeader (http.Error msg code w) = true /\
  http.status (http.Error msg code w) = code /\
  http.body (http.Error msg code w) =
    http.body w ++ [http.Text (msg +:+ String "010" EmptyString)].
Proof.
  intros Hw. unfold http.Error, http.Fprintln.
  rewrite Write_wroteHeader, Write_status, Write_body.
  rewrite WriteHeader_fresh by (now rewrite !Header_Set_wroteHeader).
  now simpl.
Qed.

(** ** strconv.Atoi on the inputs the specification names *)

Example Atoi_204 : strconv.Atoi "204" = Some 204.
Proof. reflexivity. Qed.

Example Atoi_abc : strconv.Atoi "abc" = None.
Proof. reflexivity. Qed.

Example Atoi_empty : strconv.Atoi "" = None.
Proof. reflexivity. Qed.

Example Atoi_sign_only : strconv.Atoi "-" = None.
Proof. reflexivity. Qed.

Example Atoi_out_of_int : strconv.Atoi "9223372036854775808" = None.
Proof. reflexivity. Qed.

(** ** The handlers *)

(** A request for [/healthz] reaches [handleHealth] in both variants;
    the early variant refuses every method but GET before it looks at
    the path. *)
Lemma handler_healthz_get v b r w req :
  http.Path (http.Url req) = "/healthz" ->
  http.Method req = "GET" ->
  handler v b r w req = Simple.handleHealth r w req.
Proof.
  intros Hp Hm. destruct v; simpl.
  - unfold Simple.handler. now rewrite Hm, Hp.
  - unfold Extended.handler, Extended.handleHealth. now rewrite Hm, Hp.
Qed.

Lemma handler_healthz_other v b r w req :
  http.Path (http.Url req) = "/healthz" ->
  http.Method req <> "GET" ->
  handler v b r w req =
    (http.Error "Method Not Allowed" http.StatusMethodNotAllowed w, []).
Proof.
  intros Hp Hm. apply String.eqb_neq in Hm. destruct v; simpl.
  - unfold Simple.handler. now rewrite Hm.
  - unfold Extended.handler, Extended.handleHealth. now rewrite Hp, Hm.
Qed.

Lemma handler_diagnostic b r w req :
  http.Path (http.Url req) <> "/healthz" ->
  handler extended b r w req = Extended.handleEveryThingElse b w req.
Proof.
  intros Hp. apply String.eqb_neq in Hp. simpl.
  unfold Extended.handler. now rewrite Hp.
Qed.

(** What [handleHealth] leaves in the response writer it is given by
    the server. *)
Lemma handleHealth_writer r req :
  (Simple.handleHealth r http.NewResponseWriter req).1 =
    {| http.handlerHeader := {[ "Content-Type" := ["text/plain"] ]};
       http.wroteHeader := true;
       http.status := if r then 200 else 503;
       http.sentHeader := ∅;
       http.body := [http.Text (if r then "OK" else "NOT_READY")] |}.
Proof. now destruct r. Qed.

Lemma handleEveryThingElse_writer b req :
  let w := (Extended.handleEveryThingElse b http.NewResponseWriter req).1 in
  http.wroteHeader w = true /\
  http.status w =
    match strconv.Atoi (http.Get (http.Query (http.Url req)) "statusCode") with
    | Some n => if (100 <=? n) && (n <=? 999) then n else 200
    | None => 200
    end /\
  http.sentHeader w = {[ "Content-Type" := ["application/json"] ]} /\
  http.body w =
    [http.Document "  "
       (Extended.responseBody_json (Extended.responseBodyFor b req))].
Proof.
  unfold Extended.handleEveryThingElse, Encoder.Encode.
  destruct (strconv.Atoi _) as [n|]; [|now simpl].
  replace (n >=? 100) with (100 <=? n) by lia.
  replace (n <? 1000) with (n <=? 999) by lia.
  now destruct (_ && _).
Qed.

(** C1: a GET request for [/healthz] is answered with status 200 and the
    body [OK] when the handler reads [ready] as true, and with status 503
    and the body [NOT_READY] when it reads it as false, in both variants;
    there is no other answer on this route. *)
Theorem health_get_status_and_body (v : variant) (b : Build) (r : bool)
    (req : http.Request) :
  http.Path (http.Url req) = "/healthz" ->
  http.Method req = "GET" ->
  (http.StatusCode (serve (handler v b) r req),
   http.text (http.ResponseBody (serve (handler v b) r req))) =
    if r then (200, Some "OK") else (503, Some "NOT_READY").
Proof.
  intros Hp Hm. unfold serve.
  rewrite handler_healthz_get, handleHealth_writer by assumption.
  now destruct r.
Qed.

(** C7: a request for [/healthz] with a method other than GET is answered
    with status 405, whatever the value of [ready], in both variants. *)
Theorem health_other_method_405 (v : variant) (b : Build) (r : bool)
    (req : http.Request) :
  http.Path (http.Url req) = "/healthz" ->
  http.Method req <> "GET" ->
  http.StatusCode (serve (handler v b) r req) = http.StatusMethodNotAllowed.
Proof.
  intros Hp Hm. unfold serve.
  now rewrite handler_healthz_other by assumption.
Qed.

(** C4: on the diagnostic route of the extended variant, a [statusCode]
    query parameter that [strconv.Atoi] parses to an [n] between 100 and
    999 makes [n] the status of the response; a parameter that is absent,
    does not parse, or parses to a number outside that range leaves the
    status at 200. *)
Theorem diagnostic_status_override (b : Build) (r : bool) (req : http.Request) :
  http.Path (http.Url req) <> "/healthz" ->
  let plain := http.Get (http.Query (http.Url req)) "statusCode" in
  let code := http.StatusCode (serve (handler extended b) r req) in
  (forall n, strconv.Atoi plain = Some n -> 100 <= n <= 999 -> code = n) /\
  (http.Query (http.Url req) !! "statusCode" = None -> code = 200) /\
  (strconv.Atoi plain = None -> code = 200) /\
  (forall n, strconv.Atoi plain = Some n -> n < 100 \/ 999 < n -> code = 200).
Proof.
  intros Hp plain code.
  assert (Hcode : code = match strconv.Atoi plain with
                          | Some n => if (100 <=? n) && (n <=? 999) then n else 200
                          | None => 200
                          end).
  { unfold code, serve. rewrite handler_diagnostic by assumption.
    destruct (handleEveryThingElse_writer b req) as (Hw & Hs & _).
    rewrite finish_written by assumption. exact Hs. }
  rewrite Hcode. repeat split.
  - intros n -> Hn.
    replace (100 <=? n) with true by lia. now replace (n <=? 999) with true by lia.
  - intros Hq. subst plain. unfold http.Get. now rewrite Hq.
  - now intros ->.
  - intros n -> Hn. destruct (100 <=? n) eqn:E1; [|reflexivity].
    destruct (n <=? 999) eqn:E2; [lia|reflexivity].
Qed.

(** ** The JSON form of the diagnostic body *)






(** The names of the members of the request object: the four strings,
    then each map that is not empty. *)
Lemma requestBody_names (r : Extended.requestBody) :
  json.names (Extended.requestBody_json r) =
    ["proto"; "host"; "method"; "requestURI"]
    ++ (if json.empty_map (Extended.Headers r) then [] else ["headers"])
    ++ (if json.empty_map (Extended.Form r) then [] else ["form"])
    ++ (if json.empty_map (Extended.PostForm r) then [] else ["postForm"]).
Proof.
  unfold Extended.requestBody_json, json.names, json.omitempty.
  rewrite !fmap_app.
  destruct (Extended.Headers r) as [hs|], (Extended.Form r) as [f|],
    (Extended.PostForm r) as [pf|];
    repeat match goal with
    | |- context [json.empty_map (Some ?x)] => destruct (json.empty_map (Some x))
    end; reflexivity.
Qed.


(** C10: on the diagnostic route of the extended variant, for a request
    as the server hands it over, whatever its query and its body, the
    request object of the document has neither a [form] nor a [postForm]
    member: the handler parses no form, both fields are nil and left
    out. *)
Theorem diagnostic_body_without_form (b : Build) (r : bool)
    (method : string) (u : http.URL) (proto host uri : string)
    (h : gmap string (list string)) (payload remote : string) :
  http.Path u <> "/healthz" ->
  exists doc rq,
    http.ResponseBody
      (serve (handler extended b) r
         (http.incoming method u proto host uri h payload remote))
      = [http.Document "  " doc] /\
    json.names doc = ["runtime"; "request"] /\
    json.member "request" doc = Some rq /\
    json.names rq =
      (["proto"; "host"; "method"; "requestURI"]
       ++ (if bool_decide (h = ∅) then [] else ["headers"])) /\
    ("form" ∉ json.names rq) /\
    ("postForm" ∉ json.names rq).
Proof.
  intros Hp.
  set (req := http.incoming method u proto host uri h payload remote).
  exists (Extended.responseBody_json (Extended.responseBodyFor b req)).
  exists (Extended.requestBody_json (Extended.Request (Extended.responseBodyFor b req))).
  unfold serve. rewrite handler_diagnostic by assumption.
  destruct (handleEveryThingElse_writer b req) as (Hw & _ & _ & Hb).
  rewrite finish_written by assumption.
  rewrite requestBody_names. cbn [http.ResponseBody].
  split; [exact Hb|]. split; [reflexivity|]. split; [reflexivity|].
  cbn. destruct (bool_decide (h = ∅)); cbn; repeat split;
    apply (bool_decide_unpack _); reflexivity.
Qed.

(** The members are left out because the maps are nil, not because the
    encoder never writes them: a request whose form was parsed shows
    it. *)
Example parsed_form_is_written :
  json.names
    (Extended.requestBody_json
       {| Extended.Proto := "HTTP/1.1"; Extended.Host := "example.org";
          Extended.Method := "POST"; Extended.RequestURI := "/";
          Extended.Headers := Some ∅;
          Extended.Form := Some {[ "a" := ["1"] ]};
          Extended.PostForm := Some {[ "a" := ["1"] ]} |})
  = ["proto"; "host"; "method"; "requestURI"; "form"; "postForm"].
Proof. reflexivity. Qed.

(** ** The content type of the health route *)

(** [handleHealth] sets the content type on the header map after
    [WriteHeader] has committed the header: the response goes out
    without it. *)
Lemma health_content_type_not_sent v b r req :
  http.Path (http.Url req) = "/healthz" ->
  http.Method req = "GET" ->
  http.handlerHeader (handler v b r http.NewResponseWriter req).1
    !! "Content-Type" = Some ["text/plain"] /\
  http.ResponseHeader (serve (handler v b) r req) !! "Content-Type" = None.
Proof.
  intros Hp Hm. unfold serve.
  rewrite handler_healthz_get, handleHealth_writer by assumption.
  split; reflexivity.
Qed.

(** The handlers that set the content type before they write do send
    it. *)
Example root_content_type_sent r :
  http.ResponseHeader (serve Simple.handler r (request "GET" "/" ∅))
    !! "Content-Type" = Some ["text/plain"].
Proof. reflexivity. Qed.

Lemma diagnostic_content_type_sent b r req :
  http.Path (http.Url req) <> "/healthz" ->
  http.ResponseHeader (serve (handler extended b) r req) !! "Content-Type"
    = Some ["application/json"].
Proof.
  intros Hp. unfold serve. rewrite handler_diagnostic by assumption.
  destruct (handleEveryThingElse_writer b req) as (Hw & _ & Hh & _).
  rewrite finish_written by assumption. cbn [http.ResponseHeader].
  now rewrite Hh.
Qed.


(** ** The process *)

(** Every case of a disjunction. *)
Ltac cases_or H :=
  lazymatch type of H with
  | _ \/ _ => destruct H as [H|H]; cases_or H
  | _ => idtac
  end.

Lemma stores_app l1 l2 : stores (l1 ++ l2) = stores l1 ++ stores l2.
Proof. unfold stores. apply omap_app. Qed.


Lemma prefix_through x (l r p q : list action) :
  l ++ r = p ++ x :: q -> x ∈ l -> x ∉ p -> exists k, l = p ++ x :: k.
Proof.
  revert l. induction p as [|a p IH]; intros l H Hx Hp.
  - destruct l as [|a l]; [inversion Hx|].
    simpl in H. injection H as -> H. now exists l.
  - destruct l as [|a' l]; [inversion Hx|].
    simpl in H. injection H as -> H.
    destruct (IH l H) as [k ->].
    + apply elem_of_cons in Hx as [-> | Hx]; [|exact Hx].
      exfalso. apply Hp. left.
    + intros Hin. apply Hp. now right.
    + now exists k.
Qed.

Section Steps.

Variables (h : Handler) (c : Config).

Lemma step_running e s s' : step h c e s = Some s' -> exit s = None.
Proof. unfold step. now destruct (exit s). Qed.

Lemma exec_app es1 es2 s :
  exec h c (es1 ++ es2) s = exec h c es1 s ≫= exec h c es2.
Proof.
  revert s. induction es1 as [|e es1 IH]; intros s; simpl; [reflexivity|].
  destruct (step h c e s); [apply IH|reflexivity].
Qed.

(** A process that has exited stays as it is. *)
Lemma exec_exited es s s' k :
  exec h c es s = Some s' -> exit s = Some k -> s' = s.
Proof.
  destruct es as [|e es]; simpl; intros H Hk; [congruence|].
  unfold step in H. now rewrite Hk in H.
Qed.

(** The main goroutine moves forward only, and never past [Wait]. *)
Lemma step_main_or_not e s s' :
  step h c e s = Some s' ->
  (history s' = history s /\ pc s' = pc s) \/
  (exists a, e = Main /\ a <> Wait /\ pc s = a :: pc s' /\
             history s' = history s ++ [a]).
Proof.
  unfold step. destruct (exit s); [discriminate|].
  destruct e.
  - destruct (pc s) as [|a rest] eqn:Hpc.
    + intros [= <-]. left. now rewrite <- Hpc.
    + intros H. right. exists a.
      destruct a; try discriminate; injection H as <-; now repeat split.
  - destruct (shutdown s); try discriminate.
    destruct (bool_decide _); [|discriminate]. intros [= <-]. now left.
  - destruct (shutdown s); try discriminate; intros [= <-]; now left.
  - destruct (server s); try discriminate; intros [= <-]; now left.
  - destruct (server s); try discriminate; intros [= <-]; now left.
  - destruct (server s); try discriminate.
    destruct (ready s); [|discriminate]. intros [= <-]. left.
    unfold respond. now destruct (h _ _ _).
Qed.

Lemma exec_history es s s' :
  exec h c es s = Some s' -> exists k, history s' = history s ++ k.
Proof.
  revert s. induction es as [|e es IH]; simpl; intros s H.
  - injection H as <-. exists []. now rewrite app_nil_r.
  - destruct (step h c e s) as [s1|] eqn:E; [|discriminate].
    destruct (IH _ H) as [k Hk].
    destruct (step_main_or_not _ _ _ E) as [[Hh _] | (a & _ & _ & _ & Hh)].
    + exists k. now rewrite Hk, Hh.
    + exists (a :: k). rewrite Hk, Hh. now rewrite <- app_assoc.
Qed.

End Steps.

(** ** The invariant *)

Lemma stores_snoc l a :
  stores (l ++ [a]) =
    stores l ++ match a with Store b => [b] | _ => [] end.
Proof. rewrite stores_app. now destruct a. Qed.

Lemma start_consistent v b c : consistent (init v ++ main v b c) (start v b c).
Proof.
  split; simpl.
  - reflexivity.
  - apply not_elem_of_nil.
  - reflexivity.
  - intros sig. split; intros H; inversion H.
  - now intros H.
  - now intros H.
  - intros code H. inversion H.
  - discriminate.
Qed.

Section Invariant.

Variables (h : Handler) (c : Config) (P : list action).

(** The events other than a statement of the main goroutine leave its
    history alone; what is left to show is about the fields they set. *)
Ltac same_main :=
  match goal with
  | Hc : consistent _ ?s, Hrun : exit ?s = None |- consistent _ _ =>
      destruct Hc as [I1 I2 I3 I4 I5 I6 I7 I8]; split; simpl; auto;
      try congruence;
      try (intros code Hin; apply I7 in Hin; congruence)
  end.

Lemma step_consistent e s s' :
  step h c e s = Some s' -> consistent P s -> consistent P s'.
Proof.
  intros Hstep Hc. pose proof (step_running _ _ _ _ _ Hstep) as Hrun.
  unfold step in Hstep. rewrite Hrun in Hstep. destruct e.
  - (* the main goroutine *)
    destruct (pc s) as [|a rest] eqn:Hpc.
    + injection Hstep as <-. same_main.
      intros k [= <-]. now right; left.
    + assert (Ha : a <> Wait) by (intros ->; discriminate).
      assert (Hs' : s' = perform a (advance a rest s))
        by (destruct a; congruence).
      clear Hstep. subst s'.
      destruct Hc as [I1 I2 I3 I4 I5 I6 I7 I8].
      assert (Hno : forall code, Exit code ∉ history s).
      { intros code Hin. apply I7 in Hin. congruence. }
      split.
      * rewrite <- I1, Hpc. destruct a; simpl; now rewrite <- app_assoc.
      * assert (Hw : Wait ∉ history s ++ [a]).
        { rewrite elem_of_app, list_elem_of_singleton. intros [?|?]; auto. }
        destruct a; exact Hw.
      * destruct a; simpl; rewrite stores_snoc, ?app_nil_r; try exact I3;
          now rewrite last_snoc.
      * intros sig.
        assert (Hh : history (perform a (advance a rest s)) = history s ++ [a])
          by now destruct a.
        rewrite Hh, elem_of_app, list_elem_of_singleton, <- I4.
        destruct a; simpl; rewrite ?elem_of_cons;
          split; intros H; try tauto;
          try (destruct H as [H|H]; [tauto|discriminate]).
        -- destruct H as [->|H]; [now right|now left].
        -- destruct H as [H|[= ->]]; [now right|now left].
      * assert (Hh : history (perform a (advance a rest s)) = history s ++ [a])
          by now destruct a.
        rewrite Hh, elem_of_app, list_elem_of_singleton.
        destruct a; simpl; intros Hne; try (left; now apply I5); now right.
      * assert (Hh : history (perform a (advance a rest s)) = history s ++ [a])
          by now destruct a.
        rewrite Hh, elem_of_app, list_elem_of_singleton.
        destruct a; simpl; intros Hne; try (left; now apply I6); now right.
      * assert (Hh : history (perform a (advance a rest s)) = history s ++ [a])
          by now destruct a.
        intros code. rewrite Hh, elem_of_app, list_elem_of_singleton.
        intros [Hin | <-]; [now apply Hno in Hin | reflexivity].
      * assert (Hh : history (perform a (advance a rest s)) = history s ++ [a])
          by now destruct a.
        intros k Hk. left. rewrite Hh, elem_of_app, list_elem_of_singleton.
        destruct a; simpl in Hk; try congruence. right. congruence.
  - (* a signal is taken from the channel *)
    destruct (shutdown s) eqn:Hsh; try discriminate.
    destruct (bool_decide _); [|discriminate]. injection Hstep as <-.
    same_main.
    intros _. apply I5. now rewrite Hsh.
  - (* the shutdown goroutine *)
    destruct (shutdown s) eqn:Hsh; try discriminate; injection Hstep as <-;
      same_main.
    + intros _. apply I5. now rewrite Hsh.
    + intros k [= <-]. right. right. left. split; [reflexivity|].
      rewrite Hsh. now eexists.
  - (* the server starts to accept *)
    destruct (server s) eqn:Hsv; try discriminate. injection Hstep as <-.
    same_main.
    intros _. apply I6. now rewrite Hsv.
  - (* the server fails *)
    destruct (server s) eqn:Hsv; try discriminate; injection Hstep as <-;
      same_main;
      intros k [= <-]; right; right; right; (split; [reflexivity|]);
      now rewrite Hsv.
  - (* a request *)
    destruct (server s) eqn:Hsv; try discriminate.
    destruct (ready s) as [r|] eqn:Hr; [|discriminate].
    injection Hstep as <-. unfold respond.
    destruct (h r http.NewResponseWriter req) as [w ls]. same_main.
Qed.

Lemma exec_consistent es s s' :
  exec h c es s = Some s' -> consistent P s -> consistent P s'.
Proof.
  revert s. induction es as [|e es IH]; simpl; intros s H Hc.
  - now injection H as <-.
  - destruct (step h c e s) as [s1|] eqn:E; [|discriminate].
    eapply IH; [exact H|]. eapply step_consistent; eassumption.
Qed.

End Invariant.

Lemma reachable_consistent v b c s :
  reachable v b c s -> consistent (init v ++ main v b c) s.
Proof.
  intros [es H]. eapply exec_consistent; [exact H|apply start_consistent].
Qed.

Lemma reachable_exec v b c es s s' :
  reachable v b c s -> exec (handler v b) c es s = Some s' -> reachable v b c s'.
Proof.
  intros [es0 H0] H. exists (es0 ++ es). rewrite exec_app, H0. exact H.
Qed.

(** ** The main path *)

(** The statements of the main goroutine, in both variants: the start,
    the wait for readiness, the run, the end. *)
Lemma program_shape v b c :
  init v ++ main v b c =
    [Store false; Printf (Starting (branch b) (revision b)); FlagParse;
     Notify SIGTERM; Notify SIGINT; GoShutdown; GoRunServer]
    ++ waitToBeReady v c ++ Simple.justRun c
    ++ [Printf GoodBye; Exit (exitCode c)].
Proof. now destruct v. Qed.

Lemma stores_waitToBeReady v c : stores (waitToBeReady v c) = [true].
Proof.
  destruct v; [reflexivity|].
  simpl. unfold Extended.waitToBeReady. now destruct (readyAfter c >? 0).
Qed.

Lemma stores_justRun c : stores (Simple.justRun c) = [].
Proof.
  unfold Simple.justRun.
  destruct (exitAfter c) as [d|]; [|reflexivity]. now destruct (d =? 0).
Qed.

Lemma stores_main v b c : stores (main v b c) = [true].
Proof.
  pose proof (program_shape v b c) as H.
  assert (Hi : init v = [Store false]) by now destruct v.
  rewrite Hi in H. simpl in H. injection H as ->.
  repeat (rewrite stores_app || simpl).
  now rewrite stores_waitToBeReady, stores_justRun.
Qed.

Lemma stores_program v b c : stores (init v ++ main v b c) = [false; true].
Proof. rewrite stores_app, stores_main. now destruct v. Qed.

(** In every state a process reaches, [ready] holds the last value
    stored, and the values stored so far are a prefix of false, true. *)
Lemma ready_cases v b c s :
  reachable v b c s ->
  (ready s = None /\ stores (history s) = []) \/
  (ready s = Some false /\ stores (history s) = [false]) \/
  (ready s = Some true /\ stores (history s) = [false; true]).
Proof.
  intros Hr. destruct (reachable_consistent _ _ _ _ Hr) as [I1 _ I3 _ _ _ _ _].
  apply (f_equal stores) in I1. rewrite stores_app, stores_program in I1.
  rewrite I3.
  destruct (stores (history s)) as [|x [|y [|z l]]]; simpl in I1.
  - now left.
  - injection I1 as -> _. right. now left.
  - injection I1 as -> -> _. right. now right.
  - injection I1 as _ _ Hnil. discriminate.
Qed.

(** Once true, [ready] stays true. *)
Lemma ready_stays_true v b c s es s' :
  reachable v b c s -> exec (handler v b) c es s = Some s' ->
  ready s = Some true -> ready s' = Some true.
Proof.
  intros Hr He Ht.
  pose proof (reachable_exec _ _ _ _ _ _ Hr He) as Hr'.
  destruct (exec_history _ _ _ _ _ He) as [k Hk].
  destruct (ready_cases _ _ _ _ Hr) as [[H _]|[[H _]|[_ Hs]]]; try congruence.
  destruct (ready_cases _ _ _ _ Hr') as [[_ H']|[[_ H']|[H' _]]];
    [| |exact H'];
    rewrite Hk, stores_app, Hs in H'; discriminate.
Qed.

(** The server goroutine is started after [init] has stored false:
    whenever a request can be handled, [ready] holds a bool. *)
Lemma serving_ready v b c s :
  reachable v b c s -> server s <> Off -> exists r, ready s = Some r.
Proof.
  intros Hr Hs.
  destruct (reachable_consistent _ _ _ _ Hr) as [I1 _ I3 _ _ I6 _ _].
  apply I6 in Hs. rewrite program_shape in I1.
  change ([Store false; Printf (Starting (branch b) (revision b)); FlagParse;
           Notify SIGTERM; Notify SIGINT; GoShutdown; GoRunServer] ++ ?t)
    with ([Store false; Printf (Starting (branch b) (revision b)); FlagParse;
           Notify SIGTERM; Notify SIGINT; GoShutdown] ++ GoRunServer :: t) in I1.
  destruct (prefix_through _ _ _ _ _ I1 Hs) as [k Hk].
  - rewrite !elem_of_cons, elem_of_nil. intros H.
    cases_or H; easy.
  - destruct (ready_cases _ _ _ _ Hr) as [[_ H]|[[H _]|[H _]]]; eauto.
    rewrite Hk in H. discriminate.
Qed.

(** Such a request is answered: the process is never stuck on one. *)
Lemma request_answered v b c s req :
  reachable v b c s -> exit s = None -> server s = Serving ->
  exists r, ready s = Some r /\
    step (handler v b) c (Request req) s = Some (respond (handler v b) r req s).
Proof.
  intros Hr He Hs.
  destruct (serving_ready _ _ _ _ Hr) as [r Hready]; [congruence|].
  exists r. split; [exact Hready|].
  unfold step. now rewrite He, Hs, Hready.
Qed.

(** What a request for [/healthz] is answered while the process runs:
    the response recorded for it is the one for the value [ready] has
    at that step. *)
Lemma health_served v b c s s' req :
  reachable v b c s ->
  step (handler v b) c (Request req) s = Some s' ->
  http.Path (http.Url req) = "/healthz" -> http.Method req = "GET" ->
  exists r resp,
    ready s = Some r /\ ready s' = Some r /\
    served s' = served s ++ [(req, resp)] /\
    http.StatusCode resp = (if r then 200 else 503) /\
    http.text (http.ResponseBody resp) = Some (if r then "OK" else "NOT_READY").
Proof.
  intros Hr Hstep Hp Hm. unfold step in Hstep.
  destruct (exit s); [discriminate|].
  destruct (server s); try discriminate.
  destruct (ready s) as [r|] eqn:Hready; [|discriminate].
  injection Hstep as <-. unfold respond.
  rewrite handler_healthz_get by assumption.
  pose proof (handleHealth_writer r req) as Hw.
  destruct (Simple.handleHealth r http.NewResponseWriter req) as [w ls].
  simpl in Hw. subst w.
  exists r. eexists. split; [reflexivity|]. split; [exact Hready|].
  split; [reflexivity|]. now destruct r.
Qed.

(** C2: [init] stores false into [ready] before anything else runs, the
    main path stores true once, in [waitToBeReady], and nothing else is
    stored: in every state either variant reaches the values stored so
    far are false, or false and then true, [ready] holds the last of
    them, and once it is true it is true in every later state. *)
Theorem ready_written_once (v : variant) (b : Build) (c : Config) :
  stores (init v) = [false] /\
  stores (waitToBeReady v c) = [true] /\
  stores (init v ++ main v b c) = [false; true] /\
  (ready <$> step (handler v b) c Main (start v b c)) = Some (Some false) /\
  (forall s, reachable v b c s ->
     (ready s = None /\ stores (history s) = []) \/
     (ready s = Some false /\ stores (history s) = [false]) \/
     (ready s = Some true /\ stores (history s) = [false; true])) /\
  (forall s es s' r,
     reachable v b c s -> exec (handler v b) c es s = Some s' ->
     ready s = Some r -> ready s' = Some r \/ (r = false /\ ready s' = Some true)) /\
  (forall s es s',
     reachable v b c s -> exec (handler v b) c es s = Some s' ->
     ready s = Some true -> ready s' = Some true).
Proof.
  split; [now destruct v|].
  split; [apply stores_waitToBeReady|].
  split; [apply stores_program|].
  split; [now destruct v|].
  split; [apply ready_cases|].
  split; [|apply ready_stays_true].
  intros s es s' r Hr He Hready.
  destruct r; [left; eapply ready_stays_true; eassumption|].
  pose proof (reachable_exec _ _ _ _ _ _ Hr He) as Hr'.
  destruct (exec_history _ _ _ _ _ He) as [k Hk].
  destruct (ready_cases _ _ _ _ Hr) as [[H _]|[[_ Hs]|[H _]]]; try congruence.
  destruct (ready_cases _ _ _ _ Hr') as [[_ H']|[[H' _]|[H' _]]]; auto.
  rewrite Hk, stores_app, Hs in H'. discriminate.
Qed.

(** ** Running for ever, or for a while *)

Lemma justRun_same c : Extended.justRun c = Simple.justRun c.
Proof. reflexivity. Qed.







(** ** The wait for readiness in the two variants *)

Lemma waitToBeReady_above_zero c :
  0 < readyAfter c -> Extended.waitToBeReady c = Simple.waitToBeReady c.
Proof.
  intros H. unfold Extended.waitToBeReady, Simple.waitToBeReady.
  now replace (readyAfter c >? 0) with true by lia.
Qed.

Lemma waitToBeReady_up_to_zero c :
  readyAfter c <= 0 -> Extended.waitToBeReady c = [Store true].
Proof.
  intros H. unfold Extended.waitToBeReady.
  now replace (readyAfter c >? 0) with false by lia.
Qed.

(** C6 (as the code has it): for a [readyAfter] greater than zero the two
    variants wait in the same way, they log, sleep for that long and
    store true, and so their main paths are the same; for a [readyAfter]
    of zero or less the early variant still logs and calls [time.Sleep]
    while the extended one stores true at once. They differ exactly
    when [readyAfter] is not greater than zero. *)
Theorem waitToBeReady_variants (b : Build) (c : Config) :
  (0 < readyAfter c ->
     Simple.waitToBeReady c =
       [Printf (WaitingToBeReady (readyAfter c)); Sleep (readyAfter c);
        Store true] /\
     Extended.waitToBeReady c = Simple.waitToBeReady c /\
     Extended.main b c = Simple.main b c) /\
  (readyAfter c <= 0 ->
     Simple.waitToBeReady c =
       [Printf (WaitingToBeReady (readyAfter c)); Sleep (readyAfter c);
        Store true] /\
     Extended.waitToBeReady c = [Store true]) /\
  (Simple.waitToBeReady c <> Extended.waitToBeReady c <-> readyAfter c <= 0).
Proof.
  split; [|split].
  - intros H. split; [reflexivity|]. split; [now apply waitToBeReady_above_zero|].
    unfold Extended.main, Simple.main.
    now rewrite (waitToBeReady_above_zero c H).
  - intros H. split; [reflexivity|]. now apply waitToBeReady_up_to_zero.
  - split.
    + intros Hne. destruct (Z.lt_ge_cases 0 (readyAfter c)) as [H|H]; [|exact H].
      exfalso. apply Hne. symmetry. now apply waitToBeReady_above_zero.
    + intros H. rewrite (waitToBeReady_up_to_zero c H). discriminate.
Qed.

(** At a [readyAfter] below zero, which the [readyAfter] flag accepts,
    the two variants differ as they do at zero. *)
Lemma waitToBeReady_differ_below_zero :
  ~ (forall c : Config,
       Simple.waitToBeReady c <> Extended.waitToBeReady c -> readyAfter c = 0).
Proof.
  intros H.
  specialize (H ready_after_minus_1s). discriminate H. discriminate.
Qed.

(** ** Signals *)

(** The shutdown goroutine is started after both signals were
    registered. *)
Lemma shutdown_notified v b c s sig :
  reachable v b c s -> shutdown s <> NotStarted -> sig ∈ notified s.
Proof.
  intros Hr Hs.
  destruct (reachable_consistent _ _ _ _ Hr) as [I1 _ _ I4 I5 _ _ _].
  apply I5 in Hs. rewrite program_shape in I1.
  change ([Store false; Printf (Starting (branch b) (revision b)); FlagParse;
           Notify SIGTERM; Notify SIGINT; GoShutdown; GoRunServer] ++ ?t)
    with ([Store false; Printf (Starting (branch b) (revision b)); FlagParse;
           Notify SIGTERM; Notify SIGINT] ++ GoShutdown :: GoRunServer :: t)
    in I1.
  destruct (prefix_through _ _ _ _ _ I1 Hs) as [k Hk].
  - rewrite !elem_of_cons, elem_of_nil. intros H. cases_or H; easy.
  - apply I4. rewrite Hk, elem_of_app, !elem_of_cons. left.
    destruct sig; tauto.
Qed.

(** The exit code of a process tells who ended it: the main path with
    its [os.Exit], the shutdown goroutine, or the server goroutine with
    [log.Fatalf]. *)
Lemma exit_causes v b c s k :
  reachable v b c s -> exit s = Some k ->
  Exit k ∈ history s
  \/ (k = 0 /\ exists sig, shutdown s = Logged sig)
  \/ (k = 1 /\ server s <> Off).
Proof.
  intros Hr Hk.
  destruct (reachable_consistent _ _ _ _ Hr) as [I1 _ _ _ _ _ I7 I8].
  destruct (I8 k Hk) as [H|[[_ H]|[H|H]]]; auto.
  left. rewrite H, app_nil_r, program_shape in I1.
  assert (Hin : Exit (exitCode c) ∈ history s).
  { rewrite I1, !elem_of_app, !elem_of_cons. right. right. right. right. now left. }
  pose proof (I7 _ Hin) as He. rewrite Hk in He. injection He as ->. exact Hin.
Qed.

Section Signals.

Variables (h : Handler) (c : Config).

(** Without a step of the main goroutine and without a failure of the
    server, a process exits with code 0 if it exits. *)
Lemma exec_others_exit es s s' :
  Forall (fun e => e <> Main /\ e <> ServerFail) es ->
  exec h c es s = Some s' ->
  exit s = None -> exit s' = None \/ exit s' = Some 0.
Proof.
  intros Hes. revert s. induction Hes as [|e es [Hm Hf] _ IH]; simpl; intros s H Hx.
  - injection H as <-. now left.
  - destruct (step h c e s) as [s1|] eqn:E; [|discriminate].
    assert (H1 : exit s1 = None \/ exit s1 = Some 0).
    { unfold step in E. rewrite Hx in E.
      destruct e; try congruence.
      - destruct (shutdown s); try discriminate.
        destruct (bool_decide _); [|discriminate]. injection E as <-. now left.
      - destruct (shutdown s); try discriminate; injection E as <-;
          [now left|now right].
      - destruct (server s); try discriminate. injection E as <-. now left.
      - destruct (server s); try discriminate.
        destruct (ready s); [|discriminate]. injection E as <-.
        unfold respond. destruct (h _ _ _). now left. }
    destruct H1 as [H1|H1]; [now apply (IH s1)|].
    right. now rewrite (exec_exited _ _ _ _ _ _ H H1).
Qed.

End Signals.

(** C9 (as the code has it): once the shutdown goroutine waits at its
    channel, a SIGINT or SIGTERM that arrives in a running process is
    taken by it; the goroutine then logs the signal and calls
    [os.Exit(0)], so that the process exits with code 0 whatever
    [exitCode] is and wherever the main path stands, unless the main
    path's own [os.Exit] or a failure of the server ends the process
    before the goroutine gets there. *)
Theorem signal_exits_with_zero (v : variant) (b : Build) (c : Config)
    (s : process) (sig : Signal) :
  reachable v b c s -> exit s = None -> shutdown s = AtReceive ->
  (exists s',
     exec (handler v b) c [Deliver sig; Shutdown; Shutdown] s = Some s' /\
     exit s' = Some 0 /\
     logs s' = logs s ++ [ReceivedSignal sig] /\
     pc s' = pc s) /\
  (forall es s',
     Forall (fun e => e <> Main /\ e <> ServerFail) es ->
     exec (handler v b) c (Deliver sig :: es) s = Some s' ->
     exit s' = None \/ exit s' = Some 0) /\
  (forall es s' k,
     exec (handler v b) c (Deliver sig :: es) s = Some s' ->
     exit s' = Some k ->
     (k = 0 /\ exists sig', shutdown s' = Logged sig')
     \/ Exit k ∈ history s'
     \/ (k = 1 /\ server s' <> Off)).
Proof.
  intros Hr Hx Hs.
  assert (Hn : sig ∈ notified s)
    by (apply (shutdown_notified v b c); [exact Hr|congruence]).
  assert (Hd : step (handler v b) c (Deliver sig) s
               = Some (set_shutdown (Received sig) s)).
  { unfold step. rewrite Hx, Hs. now rewrite bool_decide_eq_true_2. }
  split; [|split].
  - exists (os_Exit 0
              (set_shutdown (Logged sig)
                 (log (ReceivedSignal sig) (set_shutdown (Received sig) s)))).
    split; [|now cbn].
    simpl exec. rewrite Hd. unfold step. cbn. rewrite Hx. cbn. now rewrite Hx.
  - intros es s' Hes He. simpl in He. rewrite Hd in He.
    eapply exec_others_exit; [exact Hes|exact He|exact Hx].
  - intros es s' k He Hk.
    pose proof (reachable_exec _ _ _ _ _ _ Hr He) as Hr'.
    destruct (exit_causes _ _ _ _ _ Hr' Hk) as [H|[H|H]]; auto.
Qed.

(** The race the main path can win: the signal is taken while the main
    path is about to leave, and the process exits with [exitCode]. *)
Lemma signal_loses_race :
  (shutdown <$> exec (handler extended development) exit_7_after_2s
                  (replicate 10 Main ++ [Deliver SIGTERM; Main; Main])
                  (start extended development exit_7_after_2s))
    = Some (Received SIGTERM) /\
  (exit <$> exec (handler extended development) exit_7_after_2s
              (replicate 10 Main ++ [Deliver SIGTERM; Main; Main])
              (start extended development exit_7_after_2s))
    = Some (Some 7).
Proof. split; reflexivity. Qed.

(** ** The properties at sample inputs *)

(** The inputs the specification names for the diagnostic route. *)
Example statusCode_204 r :
  http.StatusCode (serve (handler extended development) r (get_statusCode "204"))
    = 204.
Proof. reflexivity. Qed.

Example statusCode_abc r :
  http.StatusCode (serve (handler extended development) r (get_statusCode "abc"))
    = 200.
Proof. reflexivity. Qed.

Example statusCode_50 r :
  http.StatusCode (serve (handler extended development) r (get_statusCode "50"))
    = 200.
Proof. reflexivity. Qed.

Example statusCode_1000 r :
  http.StatusCode (serve (handler extended development) r (get_statusCode "1000"))
    = 200.
Proof. reflexivity. Qed.

Lemma health_get_status_and_body_witness :
  http.Path (http.Url get_healthz) = "/healthz" /\
  http.Method get_healthz = "GET" /\
  (http.StatusCode (serve (handler simple development) false get_healthz),
   http.text (http.ResponseBody (serve (handler simple development) false get_healthz)))
    = (503, Some "NOT_READY").
Proof.
  split; [reflexivity|]. split; [reflexivity|].
  exact (health_get_status_and_body simple development false get_healthz
           eq_refl eq_refl).
Defined.

Lemma health_other_method_405_witness :
  http.Path (http.Url post_healthz) = "/healthz" /\
  http.Method post_healthz <> "GET" /\
  http.StatusCode (serve (handler extended development) true post_healthz) = 405.
Proof.
  split; [reflexivity|]. split; [discriminate|].
  apply (health_other_method_405 extended development true post_healthz);
    [reflexivity|discriminate].
Defined.

Lemma diagnostic_status_override_witness :
  http.Path (http.Url (get_statusCode "204")) <> "/healthz" /\
  strconv.Atoi
    (http.Get (http.Query (http.Url (get_statusCode "204"))) "statusCode")
    = Some 204 /\
  100 <= 204 <= 999 /\
  http.StatusCode (serve (handler extended development) true (get_statusCode "204"))
    = 204.
Proof.
  split; [discriminate|]. split; [reflexivity|]. split; [lia|].
  apply (diagnostic_status_override development true (get_statusCode "204"));
    [discriminate|reflexivity|lia].
Defined.


Lemma diagnostic_body_without_form_witness :
  http.Path {| http.Path := "/submit"; http.Query := {[ "a" := ["1"] ]} |}
    <> "/healthz" /\
  exists doc rq,
    http.ResponseBody
      (serve (handler extended development) true
         (http.incoming "POST"
            {| http.Path := "/submit"; http.Query := {[ "a" := ["1"] ]} |}
            "HTTP/1.1" "localhost:8080" "/submit?a=1"
            {[ "Content-Type" := ["application/x-www-form-urlencoded"] ]}
            "b=2" "127.0.0.1:40000"))
      = [http.Document "  " doc] /\
    json.names doc = ["runtime"; "request"] /\
    json.member "request" doc = Some rq /\
    json.names rq =
      (["proto"; "host"; "method"; "requestURI"]
       ++ (if bool_decide
                (({[ "Content-Type" := ["application/x-www-form-urlencoded"] ]}
                    : gmap string (list string)) = ∅)
           then [] else ["headers"])) /\
    ("form" ∉ json.names rq) /\
    ("postForm" ∉ json.names rq).
Proof.
  split; [discriminate|].
  apply (diagnostic_body_without_form development true "POST"
           {| http.Path := "/submit"; http.Query := {[ "a" := ["1"] ]} |}).
  discriminate.
Defined.

Lemma ready_written_once_witness :
  exists s,
    reachable extended development exit_7_after_2s s /\
    ((ready s = None /\ stores (history s) = []) \/
     (ready s = Some false /\ stores (history s) = [false]) \/
     (ready s = Some true /\ stores (history s) = [false; true])).
Proof.
  exists (run_main (handler extended development) exit_7_after_2s 8
            (start extended development exit_7_after_2s)).
  assert (Hr : reachable extended development exit_7_after_2s
                 (run_main (handler extended development) exit_7_after_2s 8
                    (start extended development exit_7_after_2s))).
  { exists (replicate 8 Main). vm_compute. reflexivity. }
  split; [exact Hr|].
  exact (proj1 (proj2 (proj2 (proj2 (proj2
           (ready_written_once extended development exit_7_after_2s))))) _ Hr).
Defined.


Lemma waitToBeReady_variants_witness :
  0 < readyAfter Simple.defaults /\
  Extended.waitToBeReady Simple.defaults = Simple.waitToBeReady Simple.defaults /\
  readyAfter ready_after_minus_1s <= 0 /\
  Extended.waitToBeReady ready_after_minus_1s = [Store true].
Proof.
  split; [reflexivity|]. split.
  { apply (proj1 (waitToBeReady_variants development Simple.defaults)).
    reflexivity. }
  split; [discriminate|].
  apply (proj1 (proj2 (waitToBeReady_variants development ready_after_minus_1s))).
  discriminate.
Defined.

Lemma signal_exits_with_zero_witness :
  exists s,
    reachable extended development exit_7_after_2s s /\
    exit s = None /\
    shutdown s = AtReceive /\
    pc s = [Printf GoodBye; Exit 7] /\
    exists s',
      exec (handler extended development) exit_7_after_2s
        [Deliver SIGINT; Shutdown; Shutdown] s = Some s' /\
      exit s' = Some 0 /\
      logs s' = logs s ++ [ReceivedSignal SIGINT] /\
      pc s' = pc s.
Proof.
  exists (run_main (handler extended development) exit_7_after_2s 10
            (start extended development exit_7_after_2s)).
  assert (Hr : reachable extended development exit_7_after_2s
                 (run_main (handler extended development) exit_7_after_2s 10
                    (start extended development exit_7_after_2s))).
  { exists (replicate 10 Main). vm_compute. reflexivity. }
  assert (Hx : exit (run_main (handler extended development) exit_7_after_2s 10
                       (start extended development exit_7_after_2s)) = None).
  { vm_compute. reflexivity. }
  assert (Hs : shutdown (run_main (handler extended development) exit_7_after_2s 10
                           (start extended development exit_7_after_2s))
               = AtReceive).
  { vm_compute. reflexivity. }
  split; [exact Hr|]. split; [exact Hx|]. split; [exact Hs|].
  split; [vm_compute; reflexivity|].
  exact (proj1 (signal_exits_with_zero extended development exit_7_after_2s
                  _ SIGINT Hr Hx Hs)).
Defined.

(** * More on the handlers *)

(** X1: the early variant answers GET [/] with status 200, the body
    [Hello world!] and the content type [text/plain] it set before
    writing, whatever [ready] holds. *)
Theorem root_hello_world (r : bool) (req : http.Request) :
  http.Path (http.Url req) = "/" ->
  http.Method req = "GET" ->
  http.StatusCode (serve Simple.handler r req) = 200 /\
  http.text (http.ResponseBody (serve Simple.handler r req))
    = Some "Hello world!" /\
  http.ResponseHeader (serve Simple.handler r req) !! "Content-Type"
    = Some ["text/plain"].
Proof.
  intros Hp Hm. unfold serve, Simple.handler. rewrite Hm, Hp. now cbn.
Qed.

Lemma root_hello_world_witness :
  http.Path (http.Url (request "GET" "/" ∅)) = "/" /\
  http.Method (request "GET" "/" ∅) = "GET" /\
  http.StatusCode (serve Simple.handler false (request "GET" "/" ∅)) = 200.
Proof.
  split; [reflexivity|]. split; [reflexivity|].
  exact (proj1 (root_hello_world false (request "GET" "/" ∅) eq_refl eq_refl)).
Defined.

(** X2: the early variant answers a GET for any path other than [/] and
    [/healthz] with status 404 and the body of [http.NotFound]. *)
Theorem simple_unknown_path_404 (r : bool) (req : http.Request) :
  http.Method req = "GET" ->
  http.Path (http.Url req) <> "/" ->
  http.Path (http.Url req) <> "/healthz" ->
  http.StatusCode (serve Simple.handler r req) = 404 /\
  http.text (http.ResponseBody (serve Simple.handler r req))
    = Some ("404 page not found" +:+ String "010" EmptyString) /\
  http.ResponseHeader (serve Simple.handler r req) !! "Content-Type"
    = Some ["text/plain; charset=utf-8"].
Proof.
  intros Hm H1 H2. apply String.eqb_neq in H1, H2.
  unfold serve, Simple.handler. rewrite Hm, H1, H2. now cbn.
Qed.

Lemma simple_unknown_path_404_witness :
  http.Method (request "GET" "/healthz/" ∅) = "GET" /\
  http.Path (http.Url (request "GET" "/healthz/" ∅)) <> "/" /\
  http.Path (http.Url (request "GET" "/healthz/" ∅)) <> "/healthz" /\
  http.StatusCode (serve Simple.handler true (request "GET" "/healthz/" ∅)) = 404.
Proof.
  split; [reflexivity|]. split; [discriminate|]. split; [discriminate|].
  apply (simple_unknown_path_404 true (request "GET" "/healthz/" ∅));
    [reflexivity|discriminate|discriminate].
Defined.

(** X3: the early variant looks at the method before it looks at the
    path: a request with a method other than GET is answered with status
    405 and the body of [http.Error] on every path, known or not, and the
    answer is the same on all of them. *)
Theorem simple_method_gate (r : bool) (req : http.Request) :
  http.Method req <> "GET" ->
  serve Simple.handler r req = serve Simple.handler r post_healthz /\
  http.StatusCode (serve Simple.handler r req) = 405 /\
  http.text (http.ResponseBody (serve Simple.handler r req))
    = Some ("Method Not Allowed" +:+ String "010" EmptyString) /\
  http.ResponseHeader (serve Simple.handler r req) !! "X-Content-Type-Options"
    = Some ["nosniff"].
Proof.
  intros Hm. apply String.eqb_neq in Hm.
  unfold serve, Simple.handler. rewrite Hm. now cbn.
Qed.

Lemma simple_method_gate_witness :
  http.Method (request "DELETE" "/" ∅) <> "GET" /\
  http.StatusCode (serve Simple.handler true (request "DELETE" "/" ∅)) = 405.
Proof.
  split; [discriminate|].
  apply (simple_method_gate true (request "DELETE" "/" ∅)). discriminate.
Defined.

(** X4: on [/healthz] the two variants are the same handler: for every
    method and every value of [ready] they leave the same response and
    log the same lines. *)
Theorem healthz_variants_agree (b : Build) (r : bool) (w : http.ResponseWriter)
    (req : http.Request) :
  http.Path (http.Url req) = "/healthz" ->
  Simple.handler r w req = Extended.handler b r w req.
Proof.
  intros Hp. unfold Simple.handler, Extended.handler, Extended.handleHealth,
    Extended.methodNotAllowed.
  rewrite Hp. cbn [String.eqb Ascii.eqb Bool.eqb].
  now destruct (negb (http.Method req =? "GET")%string).
Qed.

Lemma healthz_variants_agree_witness :
  http.Path (http.Url post_healthz) = "/healthz" /\
  Simple.handler true http.NewResponseWriter post_healthz
    = Extended.handler development true http.NewResponseWriter post_healthz.
Proof.
  split; [reflexivity|].
  exact (healthz_variants_agree development true http.NewResponseWriter
           post_healthz eq_refl).
Defined.

(** What the early variant's handler leaves in the writer, case by
    case. *)
Lemma simple_status r req :
  http.StatusCode (serve Simple.handler r req) = 200
  \/ http.StatusCode (serve Simple.handler r req) = 404
  \/ http.StatusCode (serve Simple.handler r req) = 405
  \/ http.StatusCode (serve Simple.handler r req) = 503.
Proof.
  unfold serve, Simple.handler.
  destruct (negb (http.Method req =? "GET")%string); [now right; right; left|].
  destruct (http.Path (http.Url req) =? "/")%string; [now left|].
  destruct (http.Path (http.Url req) =? "/healthz")%string;
    [|now right; left].
  destruct r; [now left|now right; right; right].
Qed.

(** X5: whatever the request, a handler of either variant commits a
    status between 100 and 999, the codes [WriteHeader] accepts: the
    query of a client cannot make it panic. *)
Theorem status_in_range (v : variant) (b : Build) (r : bool) (req : http.Request) :
  100 <= http.StatusCode (serve (handler v b) r req) <= 999.
Proof.
  destruct v.
  - simpl handler. destruct (simple_status r req) as [H|[H|[H|H]]];
      rewrite H; lia.
  - destruct (String.eqb_spec (http.Path (http.Url req)) "/healthz") as [Hp|Hp].
    + unfold serve.
      destruct (String.eqb_spec (http.Method req) "GET") as [Hm|Hm].
      * rewrite handler_healthz_get, handleHealth_writer by assumption.
        destruct r; cbn; lia.
      * rewrite handler_healthz_other by assumption.
        destruct (Error_fresh "Method Not Allowed" http.StatusMethodNotAllowed
                    http.NewResponseWriter eq_refl) as (Hw & Hs & _).
        cbn [fst]. rewrite finish_written by exact Hw.
        cbn [http.StatusCode]. rewrite Hs. unfold http.StatusMethodNotAllowed.
        lia.
    + unfold serve. rewrite handler_diagnostic by assumption.
      destruct (handleEveryThingElse_writer b req) as (Hw & Hs & _).
      rewrite finish_written by assumption. cbn [http.StatusCode].
      rewrite Hs. destruct (strconv.Atoi _) as [n|]; [|lia].
      destruct (100 <=? n) eqn:E1; [|simpl; lia].
      destruct (n <=? 999) eqn:E2; simpl; lia.
Qed.



(** ** The round trip of a whole body *)



(** X8: the request object always starts with [proto], [host],
    [method] and [requestURI], in this order, and has the member
    [headers], [form] or [postForm] exactly when the map of that field
    has an entry. *)
Theorem request_members (r : Extended.requestBody) :
  take 4 (json.names (Extended.requestBody_json r))
    = ["proto"; "host"; "method"; "requestURI"] /\
  ("headers" ∈ json.names (Extended.requestBody_json r)
     <-> json.empty_map (Extended.Headers r) = false) /\
  ("form" ∈ json.names (Extended.requestBody_json r)
     <-> json.empty_map (Extended.Form r) = false) /\
  ("postForm" ∈ json.names (Extended.requestBody_json r)
     <-> json.empty_map (Extended.PostForm r) = false).
Proof.
  rewrite requestBody_names.
  destruct (json.empty_map (Extended.Headers r)),
    (json.empty_map (Extended.Form r)),
    (json.empty_map (Extended.PostForm r)); cbn;
    (split; [reflexivity|]);
    repeat split; intros H; try discriminate; try reflexivity;
    try (exfalso; revert H; apply (bool_decide_unpack _); reflexivity);
    try (apply (bool_decide_unpack _); reflexivity).
Qed.

(** ** Status codes written in decimal *)

Lemma digit_digit_char d : 0 <= d <= 9 -> strconv.digit (digit_char d) = Some d.
Proof.
  intros H.
  assert (Hd : d = 0 \/ d = 1 \/ d = 2 \/ d = 3 \/ d = 4 \/ d = 5 \/ d = 6
               \/ d = 7 \/ d = 8 \/ d = 9) by lia.
  cases_or Hd; subst d; reflexivity.
Qed.

(** One more digit at the end of a numeral. *)
Lemma digits_snoc s c : forall acc,
  strconv.digits (s +:+ String c EmptyString) acc =
    match strconv.digits s acc, strconv.digit c with
    | Some v, Some d => Some (v * 10 + d)
    | _, _ => None
    end.
Proof.
  induction s as [|c' s IH]; intros acc; simpl.
  - now destruct (strconv.digit c).
  - destruct (strconv.digit c') as [d'|]; [apply IH|reflexivity].
Qed.

Lemma decimal_digits_spec fuel : forall n,
  0 <= n < 10 * 2 ^ Z.of_nat fuel ->
  exists c s d,
    decimal_digits fuel n = String c s /\
    strconv.digit c = Some d /\
    strconv.digits (String c s) 0 = Some n.
Proof.
  induction fuel as [|fuel IH]; intros n Hn.
  - change (Z.of_nat 0) with 0 in Hn. rewrite Z.pow_0_r in Hn.
    exists (digit_char n), EmptyString, n. simpl.
    rewrite digit_digit_char by lia. now repeat split.
  - simpl decimal_digits. destruct (n <? 10) eqn:E.
    + exists (digit_char n), EmptyString, n. simpl.
      rewrite digit_digit_char by lia. now repeat split.
    + assert (Hq : 0 <= n / 10 < 10 * 2 ^ Z.of_nat fuel).
      { rewrite Nat2Z.inj_succ, Z.pow_succ_r in Hn by lia.
        split; [apply Z.div_pos; lia|].
        apply Z.div_lt_upper_bound; lia. }
      destruct (IH _ Hq) as (c & s & d & Hs & Hc & Hv).
      exists c, (s +:+ String (digit_char (n mod 10)) EmptyString), d.
      rewrite Hs. split; [reflexivity|]. split; [exact Hc|].
      change (String c (s +:+ String (digit_char (n mod 10)) EmptyString))
        with (String c s +:+ String (digit_char (n mod 10)) EmptyString).
      rewrite digits_snoc, Hv, digit_digit_char
        by (pose proof (Z.mod_pos_bound n 10); lia).
      f_equal. pose proof (Z.div_mod n 10). lia.
Qed.

(** A numeral that starts with a digit has no sign to take off. *)
Lemma Atoi_unsigned c s d :
  strconv.digit c = Some d ->
  strconv.Atoi (String c s) =
    match strconv.digits (String c s) 0 with
    | Some n =>
        if (strconv.minInt <=? n) && (n <=? strconv.maxInt) then Some n else None
    | None => None
    end.
Proof.
  intros Hd.
  destruct c as [[] [] [] [] [] [] [] []];
    try (vm_compute in Hd; discriminate Hd); reflexivity.
Qed.

(** [strconv.Atoi] reads back the decimal numeral of every number
    from 0 to the largest [int]. *)
Lemma Atoi_decimal n :
  0 <= n <= strconv.maxInt -> strconv.Atoi (decimal n) = Some n.
Proof.
  intros Hn. unfold decimal.
  destruct (decimal_digits_spec (Z.to_nat (Z.log2 n)) n) as (c & s & d & Hs & Hc & Hv).
  { rewrite Z2Nat.id by apply Z.log2_nonneg.
    destruct (Z.eq_dec n 0) as [->|Hz]; [simpl; lia|].
    pose proof (Z.log2_spec n ltac:(lia)) as [_ Hlt].
    rewrite Z.pow_succ_r in Hlt by apply Z.log2_nonneg. lia. }
  rewrite Hs, (Atoi_unsigned c s d Hc), Hv.
  replace (strconv.minInt <=? n) with true
    by (symmetry; apply Z.leb_le; unfold strconv.minInt; lia).
  now replace (n <=? strconv.maxInt) with true by lia.
Qed.

(** X9: every status from 100 to 999 can be asked for: when the first
    [statusCode] value of the query is the decimal numeral of such an
    [n], the diagnostic route answers with status [n], whatever values
    follow it. *)
Theorem status_of_decimal (b : Build) (r : bool) (req : http.Request)
    (n : Z) (more : list string) :
  http.Path (http.Url req) <> "/healthz" ->
  100 <= n <= 999 ->
  http.Query (http.Url req) !! "statusCode" = Some (decimal n :: more) ->
  http.StatusCode (serve (handler extended b) r req) = n.
Proof.
  intros Hp Hn Hq. unfold serve. rewrite handler_diagnostic by assumption.
  destruct (handleEveryThingElse_writer b req) as (Hw & Hs & _).
  rewrite finish_written by assumption. cbn [http.StatusCode]. rewrite Hs.
  unfold http.Get. rewrite Hq, Atoi_decimal by (unfold strconv.maxInt; lia).
  replace (100 <=? n) with true by lia.
  now replace (n <=? 999) with true by lia.
Qed.

Lemma status_of_decimal_witness :
  http.Path (http.Url (request "GET" "/" {[ "statusCode" := ["418"; "500"] ]}))
    <> "/healthz" /\
  100 <= 418 <= 999 /\
  http.Query (http.Url (request "GET" "/" {[ "statusCode" := ["418"; "500"] ]}))
    !! "statusCode" = Some (decimal 418 :: ["500"]) /\
  http.StatusCode
    (serve (handler extended development) true
       (request "GET" "/" {[ "statusCode" := ["418"; "500"] ]})) = 418.
Proof.
  split; [discriminate|]. split; [lia|]. split; [reflexivity|].
  apply (status_of_decimal development true
           (request "GET" "/" {[ "statusCode" := ["418"; "500"] ]}) 418 ["500"]);
    [discriminate|lia|reflexivity].
Defined.

(** * More on the process *)

(** Induction over the states a process reaches. *)
Lemma reachable_step_ind v b c (Q : process -> Prop) :
  Q (start v b c) ->
  (forall s e s',
     reachable v b c s -> Q s ->
     step (handler v b) c e s = Some s' -> Q s') ->
  forall s, reachable v b c s -> Q s.
Proof.
  intros H0 Hstep s [es He]. revert s He.
  induction es as [|e es IH] using rev_ind; intros s He.
  - injection He as <-. exact H0.
  - rewrite exec_app in He.
    destruct (exec (handler v b) c es (start v b c)) as [s1|] eqn:E;
      [|discriminate].
    cbn in He. destruct (step (handler v b) c e s1) as [s2|] eqn:E2;
      [|discriminate].
    injection He as <-.
    eapply Hstep; [exists es; exact E | now apply IH | exact E2].
Qed.

(** A request is the only event that adds to [served]; it adds the
    response for the value [ready] has, and changes nothing of [ready]
    and of the main goroutine. *)
Lemma step_request h c req s s' :
  step h c (Request req) s = Some s' ->
  exists r,
    ready s = Some r /\ ready s' = Some r /\
    served s' = served s ++ [(req, serve h r req)] /\
    pc s' = pc s /\ history s' = history s /\ exit s' = None.
Proof.
  unfold step. destruct (exit s) eqn:Hx; [discriminate|].
  destruct (server s); try discriminate.
  destruct (ready s) as [r|] eqn:Hr; [|discriminate].
  intros [= <-]. exists r. unfold respond, serve.
  destruct (h r http.NewResponseWriter req) as [w ls]. now cbn.
Qed.

Lemma step_served_other h c e s s' :
  step h c e s = Some s' ->
  (forall req, e <> Request req) -> served s' = served s.
Proof.
  unfold step. destruct (exit s); [discriminate|]. intros H Hne.
  destruct e.
  - destruct (pc s) as [|a rest]; [now injection H as <-|].
    destruct a; try discriminate; now injection H as <-.
  - destruct (shutdown s); try discriminate.
    destruct (bool_decide _); [|discriminate]. now injection H as <-.
  - destruct (shutdown s); try discriminate; now injection H as <-.
  - destruct (server s); try discriminate; now injection H as <-.
  - destruct (server s); try discriminate; now injection H as <-.
  - now destruct (Hne req).
Qed.

Lemma health_statuses_snoc l req resp :
  health_statuses (l ++ [(req, resp)]) =
    health_statuses l
    ++ (if is_health_get req then [http.StatusCode resp] else []).
Proof.
  unfold health_statuses. rewrite filter_app, fmap_app. f_equal.
  rewrite filter_cons, filter_nil. cbn.
  destruct (is_health_get req); destruct (decide _); try reflexivity; congruence.
Qed.

Lemma is_health_get_spec req :
  is_health_get req = true <->
  http.Path (http.Url req) = "/healthz" /\ http.Method req = "GET".
Proof.
  unfold is_health_get. rewrite andb_true_iff, !String.eqb_eq. tauto.
Qed.

Lemma store_in_history (l : list action) (x : bool) :
  x ∈ stores l <-> Store x ∈ l.
Proof.
  unfold stores. rewrite list_elem_of_omap. split.
  - intros (a & Ha & Hs). destruct a; try discriminate. now injection Hs as <-.
  - intros H. now exists (Store x).
Qed.

(** X10: [init] stores false before [main] starts the server, so that
    the handler's [ready.Load().(bool)] always finds a bool: in every
    state a running process reaches with the server accepting, any
    request is handled, and handling it changes neither [ready] nor the
    main goroutine. *)
Theorem request_always_answered (v : variant) (b : Build) (c : Config)
    (s : process) (req : http.Request) :
  reachable v b c s -> exit s = None -> server s = Serving ->
  exists r s',
    ready s = Some r /\
    step (handler v b) c (Request req) s = Some s' /\
    ready s' = Some r /\ pc s' = pc s /\ exit s' = None /\
    served s' = served s ++ [(req, serve (handler v b) r req)].
Proof.
  intros Hr Hx Hs.
  destruct (request_answered v b c s req Hr Hx Hs) as (r & Hready & Hstep).
  exists r. eexists. split; [exact Hready|]. split; [exact Hstep|].
  destruct (step_request _ _ _ _ _ Hstep) as (r' & H1 & H2 & H3 & H4 & _ & H5).
  assert (r' = r) by congruence. subst r'. now repeat split.
Qed.

Lemma request_always_answered_witness :
  exists s,
    reachable simple development Simple.defaults s /\
    exit s = None /\ server s = Serving /\
    exists r s',
      ready s = Some r /\
      step (handler simple development) Simple.defaults (Request get_healthz) s
        = Some s' /\
      ready s' = Some r /\ pc s' = pc s /\ exit s' = None /\
      served s' =
        served s ++ [(get_healthz, serve (handler simple development) r get_healthz)].
Proof.
  assert (Hr : reachable simple development Simple.defaults
                 (default (start simple development Simple.defaults)
                    (exec (handler simple development) Simple.defaults
                       (replicate 7 Main ++ [ServerUp])
                       (start simple development Simple.defaults)))).
  { exists (replicate 7 Main ++ [ServerUp]). vm_compute. reflexivity. }
  eexists. split; [exact Hr|].
  assert (Hx : exit (default (start simple development Simple.defaults)
                       (exec (handler simple development) Simple.defaults
                          (replicate 7 Main ++ [ServerUp])
                          (start simple development Simple.defaults))) = None)
    by (vm_compute; reflexivity).
  assert (Hs : server (default (start simple development Simple.defaults)
                         (exec (handler simple development) Simple.defaults
                            (replicate 7 Main ++ [ServerUp])
                            (start simple development Simple.defaults)))
               = Serving)
    by (vm_compute; reflexivity).
  split; [exact Hx|]. split; [exact Hs|].
  exact (request_always_answered simple development Simple.defaults _
           get_healthz Hr Hx Hs).
Defined.

(** What the health route answers, by the value of [ready]. *)
Lemma serve_health v b r req :
  is_health_get req = true ->
  http.StatusCode (serve (handler v b) r req) = if r then 200 else 503.
Proof.
  intros H. apply is_health_get_spec in H as [Hp Hm]. unfold serve.
  rewrite handler_healthz_get, handleHealth_writer by assumption.
  now destruct r.
Qed.

(** X11: a GET for [/healthz] handled by a running process is answered
    200 exactly when the main path has already executed the store of
    true in [waitToBeReady], and 503 exactly when it has not. *)
Theorem health_ok_iff_stored (v : variant) (b : Build) (c : Config)
    (s s' : process) (req : http.Request) :
  reachable v b c s ->
  step (handler v b) c (Request req) s = Some s' ->
  is_health_get req = true ->
  exists resp,
    served s' = served s ++ [(req, resp)] /\
    (http.StatusCode resp = 200 <-> Store true ∈ history s) /\
    (http.StatusCode resp = 503 <-> Store true ∉ history s).
Proof.
  intros Hr Hstep Hh.
  destruct (step_request _ _ _ _ _ Hstep) as (r & Hready & _ & Hserved & _).
  exists (serve (handler v b) r req). split; [exact Hserved|].
  rewrite (serve_health v b r req Hh), <- store_in_history.
  destruct (ready_cases v b c s Hr) as [[H _]|[[H Hs]|[H Hs]]];
    rewrite H in Hready; try discriminate; injection Hready as <-;
    rewrite Hs, ?elem_of_cons, ?elem_of_nil; split; split; intros; try lia;
    try tauto; try (exfalso; tauto).
Qed.

Lemma health_ok_iff_stored_witness :
  exists s s',
    reachable extended development Extended.defaults s /\
    step (handler extended development) Extended.defaults (Request get_healthz) s
      = Some s' /\
    is_health_get get_healthz = true /\
    exists resp,
      served s' = served s ++ [(get_healthz, resp)] /\
      (http.StatusCode resp = 200 <-> Store true ∈ history s) /\
      (http.StatusCode resp = 503 <-> Store true ∉ history s).
Proof.
  assert (Hr : reachable extended development Extended.defaults
                 (default (start extended development Extended.defaults)
                    (exec (handler extended development) Extended.defaults
                       (replicate 7 Main ++ [ServerUp])
                       (start extended development Extended.defaults)))).
  { exists (replicate 7 Main ++ [ServerUp]). vm_compute. reflexivity. }
  eexists. eexists. split; [exact Hr|].
  assert (Hstep : step (handler extended development) Extended.defaults
                    (Request get_healthz)
                    (default (start extended development Extended.defaults)
                       (exec (handler extended development) Extended.defaults
                          (replicate 7 Main ++ [ServerUp])
                          (start extended development Extended.defaults)))
                  = Some (respond (handler extended development) false get_healthz
                            (default (start extended development Extended.defaults)
                               (exec (handler extended development) Extended.defaults
                                  (replicate 7 Main ++ [ServerUp])
                                  (start extended development Extended.defaults)))))
    by (vm_compute; reflexivity).
  split; [exact Hstep|]. split; [reflexivity|].
  exact (health_ok_iff_stored extended development Extended.defaults _ _
           get_healthz Hr Hstep eq_refl).
Defined.

(** X12: readiness never flaps. Of the answers a process has given to
    GET requests for [/healthz], in the order it handled them, all the
    503 come before all the 200: once a probe has succeeded no later
    probe fails. *)
Theorem readiness_never_flaps (v : variant) (b : Build) (c : Config)
    (s : process) :
  reachable v b c s ->
  exists n m : nat,
    health_statuses (served s) = replicate n 503 ++ replicate m 200.
Proof.
  intros Hr.
  enough (H : exists n m : nat,
            health_statuses (served s) = replicate n 503 ++ replicate m 200 /\
            (m <> 0%nat -> ready s = Some true)).
  { destruct H as (n & m & H & _). now exists n, m. }
  revert s Hr. apply reachable_step_ind.
  - now exists 0%nat, 0%nat.
  - intros s e s' Hr (n & m & Hs & Hm) Hstep.
    assert (Hkeep : ready s = Some true -> ready s' = Some true).
    { intros Ht. apply (ready_stays_true v b c s [e] s' Hr); [|exact Ht].
      simpl. now rewrite Hstep. }
    destruct e as [| | | | |req];
      try (rewrite (step_served_other _ _ _ _ _ Hstep) by discriminate;
           exists n, m; split; [exact Hs|auto]).
    destruct (step_request _ _ _ _ _ Hstep) as (r & Hready & _ & Hserved & _).
    rewrite Hserved, health_statuses_snoc, Hs.
    destruct (is_health_get req) eqn:Hh.
    + rewrite (serve_health v b r req Hh). destruct r.
      * exists n, (S m). rewrite replicate_S_end, app_assoc. split; [reflexivity|].
        intros _. now apply Hkeep.
      * assert (m = 0%nat) as ->.
        { destruct m; [reflexivity|]. rewrite Hm in Hready; [discriminate|lia]. }
        exists (S n), 0%nat. rewrite replicate_S_end. simpl.
        rewrite !app_nil_r. split; [reflexivity|lia].
    + exists n, m. rewrite app_nil_r. split; [reflexivity|auto].
Qed.

Lemma readiness_never_flaps_witness :
  exists s,
    reachable extended development Extended.defaults s /\
    exists n m : nat,
      health_statuses (served s) = replicate n 503 ++ replicate m 200.
Proof.
  assert (Hr : reachable extended development Extended.defaults
                 (default (start extended development Extended.defaults)
                    (exec (handler extended development) Extended.defaults
                       (replicate 7 Main
                        ++ [ServerUp; Request get_healthz; Main;
                            Request get_healthz])
                       (start extended development Extended.defaults)))).
  { exists (replicate 7 Main
            ++ [ServerUp; Request get_healthz; Main; Request get_healthz]).
    vm_compute. reflexivity. }
  eexists. split; [exact Hr|].
  exact (readiness_never_flaps extended development Extended.defaults _ Hr).
Defined.

(** X13: the server goroutine is started before the wait for readiness,
    so that every configuration of both variants, the extended one
    with [readyAfter] zero included, has a state in which the server
    accepts while [ready] is still false: a probe that comes in there is
    answered 503. *)
Theorem not_ready_window (v : variant) (b : Build) (c : Config)
    (req : http.Request) :
  is_health_get req = true ->
  exists s s',
    reachable v b c s /\ exit s = None /\ server s = Serving /\
    ready s = Some false /\
    step (handler v b) c (Request req) s = Some s' /\
    http.StatusCode <$> (snd <$> last (served s')) = Some 503.
Proof.
  intros Hh.
  assert (He : exec (handler v b) c (replicate 7 Main ++ [ServerUp]) (start v b c)
               = Some
                   {| ready := Some false;
                      pc := waitToBeReady v c ++ Simple.justRun c
                            ++ [Printf GoodBye; Exit (exitCode c)];
                      history :=
                        [Store false; Printf (Starting (branch b) (revision b));
                         FlagParse; Notify SIGTERM; Notify SIGINT; GoShutdown;
                         GoRunServer];
                      notified := [SIGINT; SIGTERM];
                      shutdown := AtReceive;
                      server := Serving;
                      exit := None;
                      logs := [Starting (branch b) (revision b); ListenTo (listen c)];
                      served := [] |}).
  { unfold start. rewrite program_shape. reflexivity. }
  eexists. eexists. split; [eexists; exact He|].
  split; [reflexivity|]. split; [reflexivity|]. split; [reflexivity|].
  split; [reflexivity|].
  unfold respond.
  pose proof (serve_health v b false req Hh) as Hs. unfold serve in Hs.
  destruct (handler v b false http.NewResponseWriter req) as [w ls].
  cbn. cbn in Hs. now rewrite Hs.
Qed.

Lemma not_ready_window_witness :
  is_health_get get_healthz = true /\
  exists s s',
    reachable extended development Extended.defaults s /\ exit s = None /\
    server s = Serving /\ ready s = Some false /\
    step (handler extended development) Extended.defaults (Request get_healthz) s
      = Some s' /\
    http.StatusCode <$> (snd <$> last (served s')) = Some 503.
Proof.
  split; [reflexivity|].
  exact (not_ready_window extended development Extended.defaults get_healthz
           eq_refl).
Defined.







(** What the main goroutine has started stays started. *)
Lemma started_stays v b c s :
  reachable v b c s ->
  (GoShutdown ∈ history s -> shutdown s <> NotStarted) /\
  (GoRunServer ∈ history s -> server s <> Off).
Proof.
  revert s. apply reachable_step_ind.
  - split; intros H; inversion H.
  - intros s e s' _ (Q1 & Q2) Hstep.
    pose proof (step_running _ _ _ _ _ Hstep) as Hx.
    unfold step in Hstep. rewrite Hx in Hstep. destruct e.
    + destruct (pc s) as [|a rest] eqn:Hpc; [now injection Hstep as <-|].
      assert (Hs' : s' = perform a (advance a rest s))
        by (destruct a; congruence).
      clear Hstep. subst s'.
      replace (history (perform a (advance a rest s)))
        with (history s ++ [a]) by now destruct a.
      rewrite !elem_of_app, !list_elem_of_singleton.
      split; intros [H | H]; destruct a; simpl; try discriminate; auto.
    + destruct (shutdown s) eqn:Hsh; try discriminate.
      destruct (bool_decide _); [|discriminate]. injection Hstep as <-.
      split; simpl; intros H; [discriminate|now apply Q2].
    + destruct (shutdown s) eqn:Hsh; try discriminate; injection Hstep as <-;
        (split; simpl; intros H;
         [first [discriminate | rewrite Hsh; discriminate]|now apply Q2]).
    + destruct (server s) eqn:Hsv; try discriminate. injection Hstep as <-.
      split; simpl; intros H; [now apply Q1|discriminate].
    + destruct (server s) eqn:Hsv; try discriminate; injection Hstep as <-;
        (split; simpl; intros H; [now apply Q1|rewrite Hsv; discriminate]).
    + destruct (server s) eqn:Hsv; try discriminate.
      destruct (ready s) as [r|]; [|discriminate]. injection Hstep as <-.
      unfold respond. destruct (handler v b r http.NewResponseWriter req).
      split; simpl; intros H; [now apply Q1|rewrite Hsv; discriminate].
Qed.

(** X16: the order of [main] shows in every state: when [ready] is
    true, the signals have been registered, the shutdown goroutine has
    been started and the server goroutine too. The service never
    reports ready before it can be stopped gracefully. *)
Theorem ready_implies_started (v : variant) (b : Build) (c : Config)
    (s : process) :
  reachable v b c s -> ready s = Some true ->
  shutdown s <> NotStarted /\ server s <> Off /\
  SIGINT ∈ notified s /\ SIGTERM ∈ notified s.
Proof.
  intros Hr Ht.
  destruct (started_stays v b c s Hr) as [Q1 Q2].
  assert (Hin : Store true ∈ history s).
  { apply store_in_history.
    destruct (ready_cases v b c s Hr) as [[H _]|[[H _]|[_ H]]]; try congruence.
    rewrite H. right. now left. }
  destruct (reachable_consistent _ _ _ _ Hr) as [I1 _ _ _ _ _ _ _].
  rewrite program_shape in I1.
  assert (Hpre : exists k,
    history s =
      [Store false; Printf (Starting (branch b) (revision b)); FlagParse;
       Notify SIGTERM; Notify SIGINT; GoShutdown; GoRunServer] ++ k).
  { destruct v; simpl waitToBeReady in I1;
      unfold Simple.waitToBeReady, Extended.waitToBeReady in I1;
      [|destruct (readyAfter c >? 0)].
    - destruct (prefix_through (Store true) (history s) (pc s)
                  [Store false; Printf (Starting (branch b) (revision b));
                   FlagParse; Notify SIGTERM; Notify SIGINT; GoShutdown;
                   GoRunServer; Printf (WaitingToBeReady (readyAfter c));
                   Sleep (readyAfter c)]
                  (Simple.justRun c ++ [Printf GoodBye; Exit (exitCode c)]))
        as [k Hk]; [exact I1|exact Hin| |].
      + rewrite !elem_of_cons, elem_of_nil. intros H. cases_or H; easy.
      + eexists. rewrite Hk. reflexivity.
    - destruct (prefix_through (Store true) (history s) (pc s)
                  [Store false; Printf (Starting (branch b) (revision b));
                   FlagParse; Notify SIGTERM; Notify SIGINT; GoShutdown;
                   GoRunServer; Printf (WaitingToBeReady (readyAfter c));
                   Sleep (readyAfter c)]
                  (Simple.justRun c ++ [Printf GoodBye; Exit (exitCode c)]))
        as [k Hk]; [exact I1|exact Hin| |].
      + rewrite !elem_of_cons, elem_of_nil. intros H. cases_or H; easy.
      + eexists. rewrite Hk. reflexivity.
    - destruct (prefix_through (Store true) (history s) (pc s)
                  [Store false; Printf (Starting (branch b) (revision b));
                   FlagParse; Notify SIGTERM; Notify SIGINT; GoShutdown;
                   GoRunServer]
                  (Simple.justRun c ++ [Printf GoodBye; Exit (exitCode c)]))
        as [k Hk]; [exact I1|exact Hin| |].
      + rewrite !elem_of_cons, elem_of_nil. intros H. cases_or H; easy.
      + eexists. rewrite Hk. reflexivity. }
  destruct Hpre as [k Hk].
  assert (Hsh : shutdown s <> NotStarted).
  { apply Q1. rewrite Hk, elem_of_app, !elem_of_cons. tauto. }
  split; [exact Hsh|]. split.
  - apply Q2. rewrite Hk, elem_of_app, !elem_of_cons. tauto.
  - split; now apply (shutdown_notified v b c).
Qed.

Lemma ready_implies_started_witness :
  exists s,
    reachable extended development Extended.defaults s /\
    ready s = Some true /\
    shutdown s <> NotStarted /\ server s <> Off /\
    SIGINT ∈ notified s /\ SIGTERM ∈ notified s.
Proof.
  assert (Hr : reachable extended development Extended.defaults
                 (run_main (handler extended development) Extended.defaults 8
                    (start extended development Extended.defaults))).
  { exists (replicate 8 Main). vm_compute. reflexivity. }
  assert (Ht : ready (run_main (handler extended development) Extended.defaults 8
                        (start extended development Extended.defaults))
               = Some true)
    by (vm_compute; reflexivity).
  eexists. split; [exact Hr|]. split; [exact Ht|].
  exact (ready_implies_started extended development Extended.defaults _ Hr Ht).
Defined.
